(** * The HTTP control plane of the latency benchmark (src/server.c)

    A shallow embedding of [server.c]: the request router
    [mongoose_begin_request_callback], the latency report, the in-memory file
    server, the keep-alive streaming handler and the control loop of
    [run_server], together with the properties the specification states
    about them.

    Conventions.
    - A C [int], [long] or [size_t] is a [Z]; [strlen] is the length of a
      Rocq [string] as a [Z].  The only arithmetic on [size_t] adds the
      lengths of two strings held in memory and one, which cannot wrap.
    - A [const char *] that is never null is a [string]; one that may be
      null is an [option string].
    - Everything the handlers do to the outside (writes to the connection,
      calls of collaborators, updates of the shared counter) is recorded as
      a list of [event]s, in program order.
    - Functions declared in headers that are not part of [server.c]
      (mongoose, the screen scraper, the generated asset table) are fields
      of the record [collaborators]. *)

From Stdlib Require Import ZArith List String Ascii Bool Lia Arith.
From Stdlib Require Import Floats.SpecFloat Numbers.DecimalString.
From Stdlib Require Numbers.DecimalN.
Import ListNotations.
Open Scope string_scope.

(** ** C strings and [printf] conversions *)

Module CStr.

Definition CR : ascii := "013"%char.
Definition LF : ascii := "010"%char.
Definition CRLF : string := String CR (String LF EmptyString).
Definition DQ : string := String "034"%char EmptyString.

Definition strlen (s : string) : Z := Z.of_nat (String.length s).

(** [strcmp(a, b) == 0] *)
Definition streq (a b : string) : bool := String.eqb a b.

(** [snprintf(buf, size, "%s%s", ...)] given the fully formatted [text]:
    the contents of [buf] afterwards and the number of bytes stored into it,
    the terminating zero included.  Nothing is stored when [size] is 0. *)
Definition snprintf (size : Z) (text : string) : string * Z :=
  if (size <=? 0)%Z then (EmptyString, 0%Z)
  else (substring 0 (Z.to_nat (size - 1)) text, Z.min size (strlen text + 1)).

(** [%lu] *)
Definition format_lu (n : Z) : string :=
  NilEmpty.string_of_uint (N.to_uint (Z.to_N n)).

Fixpoint zeros (n : nat) : string :=
  match n with
  | O => EmptyString
  | S k => String "0"%char (zeros k)
  end.

Definition pad_zeros (width : nat) (s : string) : string :=
  zeros (width - String.length s) ++ s.

(** Nearest integer to [num / den] ([den] positive), ties to the even one:
    the default rounding direction, which the conversion of a [double] to
    decimal follows. *)
Definition round_half_even (num den : Z) : Z :=
  let q := (num / den)%Z in
  let r := (num mod den)%Z in
  match (2 * r ?= den)%Z with
  | Lt => q
  | Gt => (q + 1)%Z
  | Eq => if Z.even q then q else (q + 1)%Z
  end.

(** A magnitude given in millionths, printed with six decimals. *)
Definition format_millionths (neg : bool) (scaled : Z) : string :=
  (if neg then "-" else EmptyString)
  ++ format_lu (scaled / 1000000)
  ++ "."
  ++ pad_zeros 6 (format_lu (scaled mod 1000000)).

(** [%f] (precision 6) of a [double].  [spec_float] has one NaN, so the
    sign some C libraries print before "nan" is left out. *)
Definition format_f (x : spec_float) : string :=
  match x with
  | S754_zero s => format_millionths s 0
  | S754_infinity s => if s then "-inf" else "inf"
  | S754_nan => "nan"
  | S754_finite s m e =>
      let scaled :=
        match e with
        | Zneg p => round_half_even (Zpos m * 1000000) (Z.pow_pos 2 p)
        | _ => (Zpos m * 2 ^ e * 1000000)%Z
        end in
      format_millionths s scaled
  end.

(** The [double] nearest to [m * 2^e]. *)
Definition double (m e : Z) : spec_float := binary_normalize 53 1024 m e false.

End CStr.
Import CStr.

(** ** Requests, events and collaborators *)

(** [struct mg_request_info], the fields the server reads.  mongoose leaves
    [query_string] null when the request line has no ['?']. *)
Record mg_request_info := {
  request_method : string;
  uri : string;
  query_string : option string
}.

(** The out-parameters of [measure_latency]. *)
Record measurement := {
  key_down_latency_ms : spec_float;
  scroll_latency_ms : spec_float;
  max_js_pause_time_ms : spec_float;
  max_css_pause_time_ms : spec_float;
  max_scroll_pause_time_ms : spec_float;
  error : string
}.

Inductive event :=
| EvPrintf (text : string)            (* mg_printf(connection, ...) *)
| EvWrite (data : string) (ret : Z)   (* mg_write(connection, data, len) = ret *)
| EvGetFile (path : string)           (* get_file(path, &size) *)
| EvFetchAdd (delta : Z)              (* __sync_fetch_and_add(&keep_alives, delta) *)
| EvAvailable (b : bool)              (* latency_tester_available() = b *)
| EvSleep (usec : Z)                  (* usleep(usec) *)
| EvMeasure (pattern : list Z)        (* measure_latency(pattern, ...) *)
| EvOpenWindow (pattern : list Z)     (* open_native_reference_window(pattern) *)
| EvCloseWindow                       (* close_native_reference_window() *)
| EvHardwareTest                      (* run_hardware_latency_test(...) *)
| EvDebugLog (text : string)          (* debug_log(...) *)
| EvStart                             (* mg_start(&callbacks, NULL, options) *)
| EvOpenBrowser (url : string)        (* open_browser(browser, profile, url) *)
| EvStop.                             (* mg_stop(mongoose) *)

(** What [server.c] takes from its headers.  The calls that answer
    differently from one call to the next on a connection
    ([latency_tester_available], [mg_write], [rand]) are indexed by the
    number of earlier calls. *)
Record collaborators := {
  (* latency-benchmark.h *)
  hex_pattern_length : Z;
  pattern_magic_bytes : nat;
  pattern_bytes : nat;
  parse_hex_magic_pattern : string -> option (list Z);
  measure_latency : list Z -> measurement -> bool * measurement;
  (* NDEBUG is defined: assets are served from memory *)
  ndebug : bool;
  (* mongoose.h; mg_get_var data data_len name dst_len = (result, dst) *)
  mg_get_var : string -> Z -> string -> Z -> Z * string;
  mg_get_builtin_mime_type : string -> string;
  mg_write_result : nat -> Z;
  (* oculus.h *)
  latency_tester_available : nat -> bool;
  run_hardware_latency_test : string -> bool * string;
  (* the table generated by files-to-c-arrays.py *)
  get_file : string -> option string;
  (* stdlib.h *)
  rand : nat -> Z
}.

(** ** The in-memory file server *)

Definition document_root : string := "html".
Definition max_path : Z := 2048.

Definition not_found_response : string :=
  "HTTP/1.1 404 Not Found" ++ CRLF
  ++ "Cache-Control: no-cache" ++ CRLF
  ++ "Content-Type: text/plain; charset=utf-8" ++ CRLF
  ++ "Content-Length: 25" ++ CRLF
  ++ "Connection: close" ++ CRLF ++ CRLF
  ++ "Error 404: File not found".

Definition found_headers (mime : string) (file_size : Z) : string :=
  "HTTP/1.1 200 OK" ++ CRLF
  ++ "Cache-Control: no-cache" ++ CRLF
  ++ "Content-Type: " ++ mime ++ CRLF
  ++ "Content-Length: " ++ format_lu file_size ++ CRLF
  ++ "Connection: close" ++ CRLF ++ CRLF.

(** An asset is the string of its bytes; [get_file] reports their number
    in [*out_size]. *)
Definition file_size (file : string) : Z := Z.of_nat (String.length file).

(** The URI the file server resolves: the index for the root. *)
Definition effective_uri (u : string) : string :=
  if (strlen u <? 2)%Z then "/index.html" else u.

(** [stored]: bytes stored into the local [file_path[max_path]];
    [sent]: the lookup, if any, and the writes to the connection. *)
Record served := { stored : Z; sent : list event }.

(** The response heads and the body [report_latency] prints. *)

Definition latency_error_headers : string :=
  "HTTP/1.1 500 Internal Server Error" ++ CRLF
  ++ "Access-Control-Allow-Origin: *" ++ CRLF
  ++ "Content-Type: text/plain" ++ CRLF ++ CRLF.

Definition latency_ok_headers : string :=
  "HTTP/1.1 200 OK" ++ CRLF
  ++ "Access-Control-Allow-Origin: *" ++ CRLF
  ++ "Cache-Control: no-cache" ++ CRLF
  ++ "Content-Type: text/plain" ++ CRLF ++ CRLF.

Definition latency_json (m : measurement) : string :=
  "{ " ++ DQ ++ "keyDownLatencyMs" ++ DQ ++ ": "
  ++ format_f (key_down_latency_ms m) ++ ", "
  ++ DQ ++ "scrollLatencyMs" ++ DQ ++ ": "
  ++ format_f (scroll_latency_ms m) ++ ", "
  ++ DQ ++ "maxJSPauseTimeMs" ++ DQ ++ ": "
  ++ format_f (max_js_pause_time_ms m) ++ ", "
  ++ DQ ++ "maxCssPauseTimeMs" ++ DQ ++ ": "
  ++ format_f (max_css_pause_time_ms m) ++ ", "
  ++ DQ ++ "maxScrollPauseTimeMs" ++ DQ ++ ": "
  ++ format_f (max_scroll_pause_time_ms m) ++ "}".

(** The two responses of the hardware test. *)

Definition hardware_ok_headers : string :=
  "HTTP/1.1 200 OK" ++ CRLF
  ++ "Access-Control-Allow-Origin: *" ++ CRLF
  ++ "Cache-Control: no-cache" ++ CRLF
  ++ "Content-Type: text/plain" ++ CRLF ++ CRLF.

Definition hardware_error_headers : string :=
  "HTTP/1.1 500 Internal Server Error" ++ CRLF
  ++ "Access-Control-Allow-Origin: *" ++ CRLF
  ++ "Cache-Control: no-cache" ++ CRLF
  ++ "Content-Type: text/plain" ++ CRLF ++ CRLF.

(** What [is_latency_test_request] comes to.  [NullQueryString]: the path
    is "/test" and [strlen] was applied to a null [query_string], which C
    leaves undefined. *)
Inductive test_request :=
| NullQueryString
| NotATest
| Test (magic_pattern : list Z).

(** The keep-alive stream. *)

Definition keep_alive_headers : string :=
  "HTTP/1.1 200 OK" ++ CRLF
  ++ "Access-Control-Allow-Origin: *" ++ CRLF
  ++ "Content-Type: application/octet-stream" ++ CRLF
  ++ "Cache-Control: no-cache" ++ CRLF
  ++ "Transfer-Encoding: chunked" ++ CRLF ++ CRLF.

Definition chunk0 : string := "1" ++ CRLF ++ "0" ++ CRLF.
Definition chunk1 : string := "1" ++ CRLF ++ "1" ++ CRLF.
Definition warmup_chunks : Z := 2048.

(** Where the handler stands: before the statement named. *)
Inductive ka_point :=
| KaEnter                             (* __sync_fetch_and_add(&keep_alives, 1) *)
| KaHeaders                           (* mg_printf of the headers *)
| KaSample                            (* chunk = latency_tester_available() ? ... *)
| KaWarmup (chunk : string) (i : Z)   (* mg_write, iteration i of the for loop *)
| KaLoop                              (* chunk = ..., in while(true) *)
| KaLoopWrite (chunk : string)        (* if (!mg_write(...)) break *)
| KaLoopSleep                         (* usleep(1000 * 1000) *)
| KaLeave                             (* __sync_fetch_and_add(&keep_alives, -1) *)
| KaReturned.                         (* after return 1 *)

Record ka_state := {
  ka_pc : ka_point;
  avail_calls : nat;   (* calls of latency_tester_available so far *)
  write_calls : nat    (* calls of mg_write so far *)
}.

Definition ka_start : ka_state :=
  {| ka_pc := KaEnter; avail_calls := 0; write_calls := 0 |}.

(** What a call of the router comes to: [Undefined] when it runs into
    undefined behaviour, [Returned] with its return value, [Running] when
    the keep-alive stream is still open after the steps allowed. *)
Inductive outcome :=
| Undefined
| Returned (ret : Z) (trace : list event)
| Running (trace : list event).

Section Server.

Variable E : collaborators.

Definition serve_file_from_memory_or_404 (request_info : mg_request_info)
  : served :=
  let uri := effective_uri (uri request_info) in
  let path_length := (strlen uri + strlen document_root + 1)%Z in
  if (path_length <? max_path)%Z then
    let (file_path, n) := snprintf path_length (document_root ++ uri) in
    match get_file E file_path with
    | Some file =>
        {| stored := n;
           sent := [ EvGetFile file_path;
                     EvPrintf (found_headers
                                 (mg_get_builtin_mime_type E file_path)
                                 (file_size file));
                     EvWrite file (mg_write_result E 0) ] |}
    | None =>
        {| stored := n;
           sent := [ EvGetFile file_path; EvPrintf not_found_response ] |}
    end
  else
    {| stored := 0; sent := [ EvPrintf not_found_response ] |}.

(** ** The latency report *)

Definition initial_measurement : measurement :=
  {| key_down_latency_ms := S754_zero false;
     scroll_latency_ms := S754_zero false;
     max_js_pause_time_ms := S754_zero false;
     max_css_pause_time_ms := S754_zero false;
     max_scroll_pause_time_ms := S754_zero false;
     error := "Unknown error." |}.

Definition report_latency (magic_pattern : list Z) : list event :=
  let (ok, m) := measure_latency E magic_pattern initial_measurement in
  if negb ok then
    [ EvMeasure magic_pattern;
      EvDebugLog ("measure_latency reported error: " ++ error m);
      EvPrintf (latency_error_headers ++ error m) ]
  else
    [ EvMeasure magic_pattern;
      EvPrintf (latency_ok_headers ++ latency_json m) ].

(** ** Recognising a latency test request *)

Definition is_latency_test_request (request_info : mg_request_info)
  : test_request :=
  if streq (uri request_info) "/test" then
    match query_string request_info with
    | None => NullQueryString
    | Some qs =>
        let (n, hex_pattern) :=
          mg_get_var E qs (strlen qs) "magicPattern"
                     (hex_pattern_length E + 1) in
        if (hex_pattern_length E =? n)%Z then
          match parse_hex_magic_pattern E hex_pattern with
          | Some magic_pattern => Test magic_pattern
          | None => NotATest
          end
        else NotATest
    end
  else NotATest.

(** ** The keep-alive streaming handler

    One step of the handler is one call that is visible outside it,
    followed by the tests that lead to the next such call. *)

Definition chunk_for (available : bool) : string :=
  if available then chunk1 else chunk0.

(** The test of the warm-up loop with its counter at [i]. *)
Definition warmup_test (chunk : string) (i : Z) : ka_point :=
  if (i <? warmup_chunks)%Z then KaWarmup chunk i else KaLoop.

Definition ka_step (st : ka_state) : option (event * ka_state) :=
  let at_pc pc :=
    {| ka_pc := pc;
       avail_calls := avail_calls st;
       write_calls := write_calls st |} in
  let sampled pc :=
    let b := latency_tester_available E (avail_calls st) in
    Some (EvAvailable b,
          {| ka_pc := pc (chunk_for b);
             avail_calls := S (avail_calls st);
             write_calls := write_calls st |}) in
  let written chunk pc :=
    let ret := mg_write_result E (write_calls st) in
    Some (EvWrite chunk ret,
          {| ka_pc := pc ret;
             avail_calls := avail_calls st;
             write_calls := S (write_calls st) |}) in
  match ka_pc st with
  | KaEnter => Some (EvFetchAdd 1, at_pc KaHeaders)
  | KaHeaders => Some (EvPrintf keep_alive_headers, at_pc KaSample)
  | KaSample => sampled (fun chunk => warmup_test chunk 0)
  | KaWarmup chunk i => written chunk (fun _ => warmup_test chunk (i + 1))
  | KaLoop => sampled KaLoopWrite
  | KaLoopWrite chunk =>
      written chunk (fun ret => if (ret =? 0)%Z then KaLeave else KaLoopSleep)
  | KaLoopSleep => Some (EvSleep (1000 * 1000), at_pc KaLoop)
  | KaLeave => Some (EvFetchAdd (-1), at_pc KaReturned)
  | KaReturned => None
  end.

(** The handler run for at most [fuel] steps from [st]: what it did and
    where it stands. *)
Fixpoint ka_run (fuel : nat) (st : ka_state) : list event * ka_state :=
  match fuel with
  | O => ([], st)
  | S fuel' =>
      match ka_step st with
      | None => ([], st)
      | Some (ev, st') =>
          let (tr, st'') := ka_run fuel' st' in (ev :: tr, st'')
      end
  end.

(** ** The request router *)

(** [malloc], [memset] and the loop storing [rand()] as [uint8_t]. *)
Definition random_test_pattern : list Z :=
  (map (fun i => (rand E i mod 256)%Z) (seq 0 (pattern_magic_bytes E))
   ++ repeat 0%Z (pattern_bytes E - pattern_magic_bytes E))%list.

Definition mongoose_begin_request_callback (fuel : nat)
    (request_info : mg_request_info) : outcome :=
  match is_latency_test_request request_info with
  | NullQueryString => Undefined
  | Test magic_pattern => Returned 1 (report_latency magic_pattern)
  | NotATest =>
      if streq (uri request_info) "/keepServerAlive" then
        let (tr, st) := ka_run fuel ka_start in
        match ka_pc st with
        | KaReturned => Returned 1 tr
        | _ => Running tr
        end
      else if streq (uri request_info) "/runControlTest" then
        if (pattern_magic_bytes E <=? pattern_bytes E)%nat then
          let test_pattern := random_test_pattern in
          Returned 1 ([ EvOpenWindow test_pattern ]
                      ++ report_latency test_pattern
                      ++ [ EvCloseWindow ])%list
        else Undefined
      else if streq (uri request_info) "/oculusLatencyTester" then
        let (ok, result_or_error) :=
          run_hardware_latency_test E "Unknown error" in
        if ok then
          Returned 1 [ EvHardwareTest;
                       EvDebugLog "hardware latency test succeeded";
                       EvPrintf (hardware_ok_headers ++ result_or_error) ]
        else
          Returned 1 [ EvHardwareTest;
                       EvDebugLog "hardware latency test failed";
                       EvPrintf (hardware_error_headers ++ result_or_error) ]
      else if ndebug E then
        Returned 1 (sent (serve_file_from_memory_or_404 request_info))
      else Returned 0 []
  end.

(** What the router does with a request that matches none of its four
    special cases. *)
Definition static_outcome (r : mg_request_info) : outcome :=
  if ndebug E
  then Returned 1 (sent (serve_file_from_memory_or_404 r))
  else Returned 0 [].

(** The shape of the keep-alive stream: the warm-up burst ... *)
Definition warmup_burst (chunk : string) : list event :=
  map (fun k => EvWrite chunk (mg_write_result E k))
      (seq 0 (Z.to_nat warmup_chunks)).

(** ... and [n] rounds of the steady loop whose writes do not return 0,
    the first of them with [a] samples and [w] writes before it. *)
Fixpoint steady_rounds (n a w : nat) : list event :=
  match n with
  | O => []
  | S k =>
      EvAvailable (latency_tester_available E a)
      :: EvWrite (chunk_for (latency_tester_available E a))
                 (mg_write_result E w)
      :: EvSleep (1000 * 1000)
      :: steady_rounds k (S a) (S w)
  end.

End Server.

(** ** The control loop of [run_server] *)

(** Where [run_server] stands: before the statement named. *)
Inductive ctl_point :=
| CtlStart             (* mg_start and open_browser *)
| CtlWaitActivity      (* the test of while(keep_alives == 0) *)
| CtlWaitQuiescence    (* the test of while(keep_alives > 0) *)
| CtlStop              (* mg_stop(mongoose) *)
| CtlReturned          (* back in main *)
| CtlExited (status : Z).

(** [opts->automated], and whether [mg_start] and [open_browser] succeed. *)
Record startup := {
  automated : bool;
  listener_started : bool;
  browser_opened : bool
}.

(** One step of [run_server]; [keep_alives] is the value the step reads
    from the volatile counter, when it reads it. *)
Definition ctl_step (cfg : startup) (pc : ctl_point) (keep_alives : Z)
  : option (list event * ctl_point) :=
  match pc with
  | CtlStart =>
      if listener_started cfg then
        let url :=
          if automated cfg
          then "http://localhost:5578/latency-benchmark.html?auto=1"
          else "http://localhost:5578/" in
        Some (([ EvStart; EvSleep 0; EvOpenBrowser url ]
               ++ (if browser_opened cfg then []
                   else [ EvDebugLog "Failed to open browser." ]))%list,
              CtlWaitActivity)
      else
        Some ([ EvStart; EvDebugLog "Failed to start server." ], CtlExited 1)
  | CtlWaitActivity =>
      if (keep_alives =? 0)%Z
      then Some ([ EvSleep (1000 * 1000) ], CtlWaitActivity)
      else Some ([], CtlWaitQuiescence)
  | CtlWaitQuiescence =>
      if (keep_alives >? 0)%Z
      then Some ([ EvSleep (1000 * 100) ], CtlWaitQuiescence)
      else Some ([], CtlStop)
  | CtlStop => Some ([ EvStop ], CtlReturned)
  | CtlReturned => None
  | CtlExited _ => None
  end.

(** [run_server] stepped once for each value of [reads], the values the
    counter shows at its successive steps. *)
Fixpoint ctl_run (cfg : startup) (reads : list Z) (pc : ctl_point)
  : list event * ctl_point :=
  match reads with
  | [] => ([], pc)
  | k :: reads' =>
      match ctl_step cfg pc k with
      | None => ([], pc)
      | Some (evs, pc') =>
          let (tr, pc'') := ctl_run cfg reads' pc' in ((evs ++ tr)%list, pc'')
      end
  end.

(** ** The process: the counter, the control loop and the handlers *)

Section Process.

(** [LONG_MAX] of limits.h. *)
Variable LONG_MAX : Z.

(** A [long] after an addition that wraps around. *)
Definition wrap_long (z : Z) : Z :=
  ((z + (LONG_MAX + 1)) mod (2 * (LONG_MAX + 1)) - (LONG_MAX + 1))%Z.

(** What an event does to [keep_alives]. *)
Definition counter_after (keep_alives : Z) (ev : event) : Z :=
  match ev with
  | EvFetchAdd delta => wrap_long (keep_alives + delta)
  | _ => keep_alives
  end.

Record process := {
  keep_alives : Z;
  control : ctl_point;
  (* one entry for each keep-alive connection accepted so far *)
  handlers : list (collaborators * ka_state)
}.

Definition process_start : process :=
  {| keep_alives := 0; control := CtlStart; handlers := [] |}.

(** What happens next: the main thread steps, a keep-alive request arrives
    on a worker, or the handler of connection [i] steps. *)
Inductive turn :=
| Main
| Accept (E : collaborators)
| Worker (i : nat).

Fixpoint set_nth {A} (i : nat) (x : A) (l : list A) : list A :=
  match l, i with
  | [], _ => []
  | _ :: t, O => x :: t
  | h :: t, S j => h :: set_nth j x t
  end.

(** A turn that cannot be taken leaves the process as it is. *)
Definition process_step (cfg : startup) (p : process) (t : turn) : process :=
  match t with
  | Main =>
      match ctl_step cfg (control p) (keep_alives p) with
      | Some (_, pc) =>
          {| keep_alives := keep_alives p;
             control := pc;
             handlers := handlers p |}
      | None => p
      end
  | Accept E =>
      {| keep_alives := keep_alives p;
         control := control p;
         handlers := (handlers p ++ [ (E, ka_start) ])%list |}
  | Worker i =>
      match nth_error (handlers p) i with
      | Some (E, st) =>
          match ka_step E st with
          | Some (ev, st') =>
              {| keep_alives := counter_after (keep_alives p) ev;
                 control := control p;
                 handlers := set_nth i (E, st') (handlers p) |}
          | None => p
          end
      | None => p
      end
  end.

Definition process_run (cfg : startup) (schedule : list turn) : process :=
  fold_left (process_step cfg) schedule process_start.

(** A handler is counted from its increment to its decrement. *)
Definition ka_counted (pc : ka_point) : bool :=
  match pc with
  | KaEnter | KaReturned => false
  | _ => true
  end.

Definition counted (hs : list (collaborators * ka_state)) : Z :=
  Z.of_nat (List.length (filter (fun h => ka_counted (ka_pc (snd h))) hs)).

End Process.

(** ** Reading a response back

    What a client sees of the text given to [mg_printf]: the status line,
    the header lines and, after the first empty line, the body. *)

Module Http.

Fixpoint split_head (line s : string) : list string * string :=
  match s with
  | EmptyString => ([ line ], EmptyString)
  | String c s' =>
      match s' with
      | EmptyString => ([ line ++ String c EmptyString ], EmptyString)
      | String d s'' =>
          if (Ascii.eqb c CR && Ascii.eqb d LF)%bool then
            match line with
            | EmptyString => ([], s'')
            | _ =>
                let (lines, body) := split_head EmptyString s'' in
                (line :: lines, body)
            end
          else split_head (line ++ String c EmptyString) s'
      end
  end.

Definition status_line (response : string) : string :=
  hd EmptyString (fst (split_head EmptyString response)).

Definition headers (response : string) : list string :=
  tl (fst (split_head EmptyString response)).

Definition has_header (h response : string) : bool :=
  existsb (String.eqb h) (headers response).

Definition body (response : string) : string :=
  snd (split_head EmptyString response).

End Http.

(** ** Collaborators for the examples

    Stand-ins for the functions [server.c] imports, used to run the server
    on concrete requests. *)

Module Example.

Definition hex_value (c : ascii) : option Z :=
  let n := Z.of_nat (nat_of_ascii c) in
  if ((48 <=? n) && (n <=? 57))%Z%bool then Some (n - 48)%Z
  else if ((97 <=? n) && (n <=? 102))%Z%bool then Some (n - 87)%Z
  else if ((65 <=? n) && (n <=? 70))%Z%bool then Some (n - 55)%Z
  else None.

Fixpoint decode_hex (s : string) : option (list Z) :=
  match s with
  | EmptyString => Some []
  | String _ EmptyString => None
  | String a (String b rest) =>
      match hex_value a, hex_value b, decode_hex rest with
      | Some hi, Some lo, Some bytes => Some ((16 * hi + lo)%Z :: bytes)
      | _, _, _ => None
      end
  end.

(** Modelled from the spec: [parse_hex_magic_pattern] of the screen scraper,
    which is not in [server.c].  The string must be exactly [2*N]
    hexadecimal characters; each adjacent pair decodes to one byte. *)
Definition parse_hex (n : nat) (s : string) : option (list Z) :=
  if Nat.eqb (String.length s) (2 * n) then decode_hex s else None.

(** The value of [name] in a query string of [&]-separated [name=value]
    pairs. *)
Fixpoint take_value (s : string) : string :=
  match s with
  | EmptyString => EmptyString
  | String c rest =>
      if Ascii.eqb c "&"%char then EmptyString else String c (take_value rest)
  end.

Fixpoint find_var (at_start : bool) (name s : string) : option string :=
  match s with
  | EmptyString => None
  | String c rest =>
      if (at_start && prefix (name ++ "=") s)%bool
      then Some (take_value (substring (String.length name + 1)
                                       (String.length s) s))
      else find_var (Ascii.eqb c "&"%char) name rest
  end.

(** A stand-in for mongoose's [mg_get_var], without percent-decoding:
    the length of the value, -1 when the variable is absent, -2 when the
    value does not fit [dst_len] bytes with its terminating zero. *)
Definition get_var (data : string) (data_len : Z) (name : string)
    (dst_len : Z) : Z * string :=
  if (dst_len <=? 0)%Z then ((-2)%Z, EmptyString)
  else if (data_len =? 0)%Z then ((-1)%Z, EmptyString)
  else
    match find_var true name data with
    | None => ((-1)%Z, EmptyString)
    | Some v =>
        if (strlen v <? dst_len)%Z then (strlen v, v)
        else ((-2)%Z, EmptyString)
    end.

Definition with_metrics (a b c d e : spec_float) (m : measurement)
  : measurement :=
  {| key_down_latency_ms := a;
     scroll_latency_ms := b;
     max_js_pause_time_ms := c;
     max_css_pause_time_ms := d;
     max_scroll_pause_time_ms := e;
     error := error m |}.

(** A release build with an index page as its only asset; the measurement
    succeeds with [metrics] or fails leaving the error text as it was; the
    first [alive] writes of the steady loop succeed. *)
Definition build (metrics : option (measurement -> measurement))
    (tester : bool) (alive : nat) : collaborators :=
  {| hex_pattern_length := 24;
     pattern_magic_bytes := 12;
     pattern_bytes := 16;
     parse_hex_magic_pattern := parse_hex 12;
     measure_latency := fun _ m =>
       match metrics with
       | Some f => (true, f m)
       | None => (false, m)
       end;
     ndebug := true;
     mg_get_var := get_var;
     mg_get_builtin_mime_type := fun _ => "text/html";
     mg_write_result := fun k =>
       if (k <? 2048 + alive)%nat then 6%Z else 0%Z;
     latency_tester_available := fun _ => tester;
     run_hardware_latency_test := fun e => (false, e);
     get_file := fun path =>
       if String.eqb path "html/index.html" then Some "<html></html>"
       else None;
     rand := fun i => Z.of_nat i |}.

Definition scenario_A : collaborators :=
  build (Some (with_metrics (double 5 0) (double 2 0) (double 1 0)
                            (double 1 (-1)) (double 1 (-2))))
        false 0.

Definition measurement_fails : collaborators := build None false 0.

Definition get (uri : string) (query : option string) : mg_request_info :=
  {| request_method := "GET"; uri := uri; query_string := query |}.

Definition valid_test_request : mg_request_info :=
  get "/test" (Some "magicPattern=8a36052d02c596dfa4c80711").

(** Every write of the burst returns 0, the first two writes of the
    steady loop return 6 and the third returns 0; the tester is absent. *)
Definition failing_burst : collaborators :=
  {| hex_pattern_length := 24;
     pattern_magic_bytes := 12;
     pattern_bytes := 16;
     parse_hex_magic_pattern := parse_hex 12;
     measure_latency := fun _ m => (false, m);
     ndebug := true;
     mg_get_var := get_var;
     mg_get_builtin_mime_type := fun _ => "text/html";
     mg_write_result := fun k =>
       if ((2048 <=? k) && (k <? 2050))%nat%bool then 6%Z else 0%Z;
     latency_tester_available := fun _ => false;
     run_hardware_latency_test := fun e => (false, e);
     get_file := fun _ => None;
     rand := fun i => Z.of_nat i |}.

(** A start of [run_server] where the listener and the browser come up. *)
Definition started : startup :=
  {| automated := false; listener_started := true; browser_opened := true |}.

End Example.

(** The body of scenario A, as the specification writes it. *)
Definition scenario_A_body : string :=
  "{ " ++ DQ ++ "keyDownLatencyMs" ++ DQ ++ ": 5.000000, "
  ++ DQ ++ "scrollLatencyMs" ++ DQ ++ ": 2.000000, "
  ++ DQ ++ "maxJSPauseTimeMs" ++ DQ ++ ": 1.000000, "
  ++ DQ ++ "maxCssPauseTimeMs" ++ DQ ++ ": 0.500000, "
  ++ DQ ++ "maxScrollPauseTimeMs" ++ DQ ++ ": 0.250000}".

(** ** Requests that differ in one field *)

Definition with_uri (u : string) (r : mg_request_info) : mg_request_info :=
  {| request_method := request_method r;
     uri := u;
     query_string := query_string r |}.

Definition with_method (m : string) (r : mg_request_info) : mg_request_info :=
  {| request_method := m;
     uri := uri r;
     query_string := query_string r |}.

Definition with_query (q : option string) (r : mg_request_info)
  : mg_request_info :=
  {| request_method := request_method r;
     uri := uri r;
     query_string := q |}.

(** ** Kinds of events *)

(** A write to the connection. *)
Definition is_send (ev : event) : bool :=
  match ev with
  | EvPrintf _ | EvWrite _ _ => true
  | _ => false
  end.

Definition is_fetch_add (ev : event) : bool :=
  match ev with
  | EvFetchAdd _ => true
  | _ => false
  end.

(** The status byte a chunk carries: its payload, after the size line. *)
Definition status_byte (chunk : string) : option ascii := String.get 3 chunk.

(** ** Shapes of traces *)

(** No update of the counter. *)
Definition quiet (body : list event) : Prop :=
  Forall (fun ev => is_fetch_add ev = false) body.

(** The trace of a handler that stands at [pc]: nothing before the
    increment; the increment first and no other update while the handler
    runs; the decrement last once it has returned. *)
Definition ka_bracket (tr : list event) (pc : ka_point) : Prop :=
  match pc with
  | KaEnter => tr = []
  | KaReturned =>
      exists body,
        tr = (EvFetchAdd 1 :: body ++ [ EvFetchAdd (-1) ])%list /\ quiet body
  | _ => exists body, tr = EvFetchAdd 1 :: body /\ quiet body
  end.

(** How far the writes of a handler have come. *)
Definition ka_progress (E : collaborators) (st : ka_state) : Prop :=
  let w := write_calls st in
  let burst := Z.to_nat warmup_chunks in
  match ka_pc st with
  | KaEnter | KaHeaders | KaSample => w = 0
  | KaWarmup _ i => (0 <= i < warmup_chunks)%Z /\ w = Z.to_nat i
  | KaLoop | KaLoopWrite _ | KaLoopSleep =>
      burst <= w
      /\ forall k, burst <= k < w -> mg_write_result E k <> 0%Z
  | KaLeave | KaReturned =>
      burst < w
      /\ mg_write_result E (w - 1) = 0%Z
      /\ forall k, burst <= k < w - 1 -> mg_write_result E k <> 0%Z
  end.

(** The handler at the top of the steady loop. *)
Definition loop_state (a w : nat) : ka_state :=
  {| ka_pc := KaLoop; avail_calls := a; write_calls := w |}.

(** The control loop is past its two waits. *)
Definition passed (tr : list event) (pc : ctl_point) : Prop :=
  In EvStop tr \/ pc = CtlStop \/ pc = CtlReturned.

(** [LONG_MAX] where [long] has 64 bits. *)
Definition long_max_64 : Z := 2 ^ 63 - 1.

(** A URI of 2049 characters. *)
Definition long_uri : string := "/" ++ zeros 2048.

(** ** Outcomes, response heads and runs the further properties speak of *)

(** What a call of the router did, whatever it came to. *)
Definition outcome_trace (o : outcome) : list event :=
  match o with
  | Undefined => []
  | Returned _ tr => tr
  | Running tr => tr
  end.

(** The events a keep-alive handler produces. *)
Definition stream_event (ev : event) : Prop :=
  match ev with
  | EvFetchAdd _ | EvAvailable _ | EvWrite _ _ | EvSleep _ => True
  | EvPrintf text => text = keep_alive_headers
  | _ => False
  end.

(** No carriage return in a line. *)
Fixpoint no_cr (s : string) : bool :=
  match s with
  | EmptyString => true
  | String c s' => negb (Ascii.eqb c CR) && no_cr s'
  end.

(** How the router took a request. *)
Inductive routed (E : collaborators) (r : mg_request_info)
  : outcome -> Prop :=
| RoutedNullQuery :
    uri r = "/test" -> query_string r = None ->
    routed E r Undefined
| RoutedTest (qs hex : string) (pattern : list Z) :
    uri r = "/test" -> query_string r = Some qs ->
    mg_get_var E qs (strlen qs) "magicPattern" (hex_pattern_length E + 1)
    = (hex_pattern_length E, hex) ->
    parse_hex_magic_pattern E hex = Some pattern ->
    routed E r (Returned 1 (report_latency E pattern))
| RoutedStreamEnded (fuel : nat) :
    uri r = "/keepServerAlive" ->
    ka_pc (snd (ka_run E fuel ka_start)) = KaReturned ->
    routed E r (Returned 1 (fst (ka_run E fuel ka_start)))
| RoutedStreamOpen (fuel : nat) :
    uri r = "/keepServerAlive" ->
    ka_pc (snd (ka_run E fuel ka_start)) <> KaReturned ->
    routed E r (Running (fst (ka_run E fuel ka_start)))
| RoutedControlTest :
    uri r = "/runControlTest" ->
    pattern_magic_bytes E <= pattern_bytes E ->
    routed E r
      (Returned 1 (EvOpenWindow (random_test_pattern E)
                   :: report_latency E (random_test_pattern E)
                   ++ [ EvCloseWindow ])%list)
| RoutedControlOverrun :
    uri r = "/runControlTest" ->
    pattern_bytes E < pattern_magic_bytes E ->
    routed E r Undefined
| RoutedHardwareTest (ok : bool) (text : string) :
    uri r = "/oculusLatencyTester" ->
    run_hardware_latency_test E "Unknown error" = (ok, text) ->
    routed E r
      (Returned 1
         [ EvHardwareTest;
           EvDebugLog (if ok then "hardware latency test succeeded"
                       else "hardware latency test failed");
           EvPrintf ((if ok then hardware_ok_headers
                      else hardware_error_headers) ++ text) ])
| RoutedStatic :
    uri r <> "/keepServerAlive" ->
    uri r <> "/runControlTest" ->
    uri r <> "/oculusLatencyTester" ->
    (uri r = "/test" ->
     exists qs, query_string r = Some qs
       /\ let (n, hex) :=
            mg_get_var E qs (strlen qs) "magicPattern"
                       (hex_pattern_length E + 1) in
          n <> hex_pattern_length E \/ parse_hex_magic_pattern E hex = None) ->
    routed E r (static_outcome E r).



(** A connection on which no write ever returns 0. *)
Definition always_writable : collaborators :=
  {| hex_pattern_length := 24;
     pattern_magic_bytes := 12;
     pattern_bytes := 16;
     parse_hex_magic_pattern := Example.parse_hex 12;
     measure_latency := fun _ m => (false, m);
     ndebug := true;
     mg_get_var := Example.get_var;
     mg_get_builtin_mime_type := fun _ => "text/html";
     mg_write_result := fun _ => 6%Z;
     latency_tester_available := fun _ => true;
     run_hardware_latency_test := fun e => (true, e);
     get_file := fun _ => None;
     rand := fun i => Z.of_nat i |}.

(** A start of [run_server] where the listener does not come up. *)
Definition listener_down : startup :=
  {| automated := true; listener_started := false; browser_opened := true |}.

(** The main thread starts; a keep-alive request arrives and its handler
    increments the counter; the main thread polls. *)
Definition one_stream : list turn :=
  [ Main; Accept Example.scenario_A; Worker 0; Main ].

(** A decimal numeral read back. *)
Definition decimal (s : string) : option Z :=
  option_map (fun d => Z.of_N (N.of_uint d)) (NilEmpty.uint_of_string s).

(** [p] begins [s]. *)
Fixpoint starts_with (p s : string) : bool :=
  match p, s with
  | EmptyString, _ => true
  | String a p', String b s' => (Ascii.eqb a b && starts_with p' s')%bool
  | String _ _, EmptyString => false
  end.

(** The length a response head declares. *)
Definition content_length (response : string) : option Z :=
  match find (starts_with "Content-Length: ") (Http.headers response) with
  | Some h => decimal (substring 16 (String.length h - 16) h)
  | None => None
  end.

(** A release build whose index page is written whole. *)
Definition index_served : collaborators :=
  {| hex_pattern_length := 24;
     pattern_magic_bytes := 12;
     pattern_bytes := 16;
     parse_hex_magic_pattern := Example.parse_hex 12;
     measure_latency := fun _ m => (false, m);
     ndebug := true;
     mg_get_var := Example.get_var;
     mg_get_builtin_mime_type := fun _ => "text/html";
     mg_write_result := fun _ => 13%Z;
     latency_tester_available := fun _ => false;
     run_hardware_latency_test := fun e => (false, e);
     get_file := fun path =>
       if String.eqb path "html/index.html" then Some "<html></html>"
       else None;
     rand := fun i => Z.of_nat i |}.

(** * Properties *)

(** ** The in-memory file server *)

Section FileServer.

Variable E : collaborators.

Lemma effective_uri_root (u : string) :
  (strlen u < 2)%Z -> effective_uri u = "/index.html".
Proof.
  intros H. unfold effective_uri.
  destruct (Z.ltb_spec (strlen u) 2) as [_ | Hge]; [reflexivity | lia].
Qed.

Lemma effective_uri_long (u : string) :
  (2 <= strlen u)%Z -> effective_uri u = u.
Proof.
  intros H. unfold effective_uri.
  destruct (Z.ltb_spec (strlen u) 2) as [Hlt | _]; [lia | reflexivity].
Qed.

Lemma serve_depends_on_effective_uri (r1 r2 : mg_request_info) :
  effective_uri (uri r1) = effective_uri (uri r2) ->
  serve_file_from_memory_or_404 E r1 = serve_file_from_memory_or_404 E r2.
Proof.
  intros H. unfold serve_file_from_memory_or_404. now rewrite H.
Qed.

(** A URI shorter than two characters is none of the four special paths. *)
Lemma short_uri_not_special (u lit : string) :
  (strlen u < 2)%Z -> (2 <= strlen lit)%Z -> streq u lit = false.
Proof.
  intros Hu Hlit. unfold streq.
  destruct (String.eqb_spec u lit) as [-> | _]; [lia | reflexivity].
Qed.

Lemma strlen_nonneg (s : string) : (0 <= strlen s)%Z.
Proof. unfold strlen. lia. Qed.

Lemma snprintf_stored (size : Z) (text : string) :
  (0 <= snd (snprintf size text) <= Z.max 0 size)%Z.
Proof.
  unfold snprintf. pose proof (strlen_nonneg text).
  destruct (Z.leb_spec size 0); simpl; lia.
Qed.

(** When the size covers the text and its terminating zero, [snprintf]
    stores the text whole. *)
Lemma snprintf_fits (text : string) :
  snprintf (strlen text + 1) text = (text, (strlen text + 1)%Z).
Proof.
  unfold snprintf. pose proof (strlen_nonneg text).
  destruct (Z.leb_spec (strlen text + 1) 0) as [Hle | _]; [lia |].
  f_equal.
  - replace (strlen text + 1 - 1)%Z with (strlen text) by lia.
    unfold strlen. rewrite Nat2Z.id.
    clear. induction text as [| c t IH]; [reflexivity |].
    simpl. now rewrite IH.
  - lia.
Qed.

Lemma strlen_append (a b : string) :
  strlen (a ++ b) = (strlen a + strlen b)%Z.
Proof.
  unfold strlen. induction a as [| c a IH]; simpl String.length.
  - reflexivity.
  - simpl append. simpl String.length. lia.
Qed.

(** The path looked up is the document root followed by the URI. *)
Lemma serve_lookup (r : mg_request_info) :
  let u := effective_uri (uri r) in
  (strlen u + strlen document_root + 1 < max_path)%Z ->
  hd_error (sent (serve_file_from_memory_or_404 E r))
  = Some (EvGetFile (document_root ++ u)).
Proof.
  intros u H. unfold serve_file_from_memory_or_404. fold u.
  destruct (Z.ltb_spec (strlen u + strlen document_root + 1) max_path)
    as [_ | Hge]; [| lia].
  replace (strlen u + strlen document_root + 1)%Z
    with (strlen (document_root ++ u) + 1)%Z
    by (rewrite strlen_append; lia).
  rewrite snprintf_fits.
  now destruct (get_file E (document_root ++ u)).
Qed.

(** C7. A request whose URI is shorter than two characters (the root) is
    served by the in-memory file server exactly as a request for
    "/index.html": the same lookup, the same response head and the same
    bytes; and the router, which sends both to the file server, returns the
    same for both. *)
Theorem root_served_as_index (fuel : nat) (r : mg_request_info) :
  (strlen (uri r) < 2)%Z ->
  serve_file_from_memory_or_404 E r
  = serve_file_from_memory_or_404 E (with_uri "/index.html" r)
  /\ mongoose_begin_request_callback E fuel r
     = mongoose_begin_request_callback E fuel (with_uri "/index.html" r).
Proof.
  intros Hshort.
  assert (Hserve : serve_file_from_memory_or_404 E r
                   = serve_file_from_memory_or_404 E
                       (with_uri "/index.html" r)).
  { apply serve_depends_on_effective_uri. simpl.
    now rewrite effective_uri_root. }
  split; [exact Hserve |].
  unfold mongoose_begin_request_callback, is_latency_test_request.
  rewrite Hserve. simpl uri.
  rewrite !(short_uri_not_special (uri r))
    by (assumption || (vm_compute; discriminate)).
  reflexivity.
Qed.

(** C6. The path buffer is never written beyond its [max_path] bytes; and
    when the document root and the URI resolved together are longer than
    [max_path], nothing is stored, no asset is looked up, and the response
    is the fixed 404. *)
Theorem path_length_guard (r : mg_request_info) :
  (0 <= stored (serve_file_from_memory_or_404 E r) < max_path)%Z
  /\ ((max_path < strlen document_root + strlen (effective_uri (uri r)))%Z ->
      serve_file_from_memory_or_404 E r
      = {| stored := 0; sent := [ EvPrintf not_found_response ] |})
  /\ Http.status_line not_found_response = "HTTP/1.1 404 Not Found"
  /\ Http.body not_found_response = "Error 404: File not found".
Proof.
  split; [| split; [| split; reflexivity]].
  - unfold serve_file_from_memory_or_404.
    set (u := effective_uri (uri r)).
    destruct (Z.ltb_spec (strlen u + strlen document_root + 1) max_path)
      as [Hlt | Hge].
    + pose proof (snprintf_stored (strlen u + strlen document_root + 1)
                                  (document_root ++ u)) as Hs.
      pose proof (strlen_nonneg u). pose proof (strlen_nonneg document_root).
      destruct (snprintf _ _) as [file_path n]. simpl in Hs.
      destruct (get_file E file_path); simpl; lia.
    + simpl. unfold max_path. lia.
  - intros Hlong. unfold serve_file_from_memory_or_404.
    set (u := effective_uri (uri r)) in *.
    destruct (Z.ltb_spec (strlen u + strlen document_root + 1) max_path)
      as [Hlt | _]; [lia | reflexivity].
Qed.

(** The guard is one byte stricter than the buffer: a path of exactly
    [max_path - 1] characters, which would fit with its terminating zero,
    is not looked up either. *)
Lemma path_length_guard_threshold (r : mg_request_info) :
  (max_path <= strlen document_root + strlen (effective_uri (uri r)) + 1)%Z ->
  sent (serve_file_from_memory_or_404 E r) = [ EvPrintf not_found_response ].
Proof.
  intros H. unfold serve_file_from_memory_or_404.
  set (u := effective_uri (uri r)) in *.
  destruct (Z.ltb_spec (strlen u + strlen document_root + 1) max_path)
    as [Hlt | _]; [lia | reflexivity].
Qed.

End FileServer.

Lemma root_served_as_index_witness :
  serve_file_from_memory_or_404 Example.scenario_A (Example.get "/" None)
  = serve_file_from_memory_or_404 Example.scenario_A
      (with_uri "/index.html" (Example.get "/" None))
  /\ mongoose_begin_request_callback Example.scenario_A 0
       (Example.get "/" None)
     = mongoose_begin_request_callback Example.scenario_A 0
         (with_uri "/index.html" (Example.get "/" None)).
Proof.
  apply (root_served_as_index Example.scenario_A 0 (Example.get "/" None)).
  reflexivity.
Defined.

Lemma path_length_guard_witness :
  (max_path < strlen document_root
              + strlen (effective_uri (uri (Example.get long_uri None))))%Z
  /\ serve_file_from_memory_or_404 Example.scenario_A
       (Example.get long_uri None)
     = {| stored := 0; sent := [ EvPrintf not_found_response ] |}.
Proof.
  assert (H : (max_path < strlen document_root
                 + strlen (effective_uri
                             (uri (Example.get long_uri None))))%Z)
    by (vm_compute; reflexivity).
  split; [exact H |].
  exact (proj1 (proj2 (path_length_guard Example.scenario_A
                         (Example.get long_uri None))) H).
Defined.

(** ** The latency report *)

Section Report.

Variable E : collaborators.

(** On success the response carries both headers. *)
Lemma report_latency_success (pattern : list Z) (m : measurement) :
  measure_latency E pattern initial_measurement = (true, m) ->
  report_latency E pattern
  = [ EvMeasure pattern; EvPrintf (latency_ok_headers ++ latency_json m) ]
  /\ Http.status_line (latency_ok_headers ++ latency_json m)
     = "HTTP/1.1 200 OK"
  /\ Http.headers (latency_ok_headers ++ latency_json m)
     = [ "Access-Control-Allow-Origin: *"; "Cache-Control: no-cache";
         "Content-Type: text/plain" ]
  /\ Http.body (latency_ok_headers ++ latency_json m) = latency_json m.
Proof.
  intros H. unfold report_latency. rewrite H. simpl negb. cbv iota.
  repeat split.
Qed.

(** On failure the response is the 500 with the permissive cross-origin
    header and the content type, and nothing else: whatever the error text,
    its head has no header that disables caching. *)
Lemma report_latency_failure (pattern : list Z) (m : measurement) :
  measure_latency E pattern initial_measurement = (false, m) ->
  report_latency E pattern
  = [ EvMeasure pattern;
      EvDebugLog ("measure_latency reported error: " ++ error m);
      EvPrintf (latency_error_headers ++ error m) ]
  /\ Http.status_line (latency_error_headers ++ error m)
     = "HTTP/1.1 500 Internal Server Error"
  /\ Http.headers (latency_error_headers ++ error m)
     = [ "Access-Control-Allow-Origin: *"; "Content-Type: text/plain" ]
  /\ Http.has_header "Cache-Control: no-cache"
       (latency_error_headers ++ error m) = false
  /\ Http.body (latency_error_headers ++ error m) = error m.
Proof.
  intros H. unfold report_latency. rewrite H. simpl negb. cbv iota.
  repeat split.
Qed.

(** A request the router takes for a latency test is answered by
    [report_latency]. *)
Lemma test_request_reported (fuel : nat) (r : mg_request_info)
    (qs hex : string) (pattern : list Z) :
  uri r = "/test" ->
  query_string r = Some qs ->
  mg_get_var E qs (strlen qs) "magicPattern" (hex_pattern_length E + 1)
  = (hex_pattern_length E, hex) ->
  parse_hex_magic_pattern E hex = Some pattern ->
  mongoose_begin_request_callback E fuel r
  = Returned 1 (report_latency E pattern).
Proof.
  intros Huri Hqs Hvar Hparse.
  unfold mongoose_begin_request_callback, is_latency_test_request.
  rewrite Huri, Hqs, Hvar, Z.eqb_refl, Hparse. reflexivity.
Qed.

(** C5. A request for "/test" with a valid pattern (the query holds a
    [magicPattern] of the required length that decodes), when the
    measurement succeeds with 5.0, 2.0, 1.0, 0.5 and 0.25, is answered with
    status 200 and a body that is exactly the text of scenario A. *)
Theorem scenario_A_response (fuel : nat) (r : mg_request_info)
    (qs hex : string) (pattern : list Z) (m : measurement) :
  uri r = "/test" ->
  query_string r = Some qs ->
  mg_get_var E qs (strlen qs) "magicPattern" (hex_pattern_length E + 1)
  = (hex_pattern_length E, hex) ->
  parse_hex_magic_pattern E hex = Some pattern ->
  measure_latency E pattern initial_measurement = (true, m) ->
  key_down_latency_ms m = double 5 0 ->
  scroll_latency_ms m = double 2 0 ->
  max_js_pause_time_ms m = double 1 0 ->
  max_css_pause_time_ms m = double 1 (-1) ->
  max_scroll_pause_time_ms m = double 1 (-2) ->
  exists response,
    mongoose_begin_request_callback E fuel r
    = Returned 1 [ EvMeasure pattern; EvPrintf response ]
    /\ Http.status_line response = "HTTP/1.1 200 OK"
    /\ Http.body response = scenario_A_body.
Proof.
  intros Huri Hqs Hvar Hparse Hm H1 H2 H3 H4 H5.
  exists (latency_ok_headers ++ latency_json m).
  rewrite (test_request_reported fuel r qs hex pattern Huri Hqs Hvar Hparse).
  destruct (report_latency_success pattern m Hm) as (-> & Hstatus & _ & ->).
  split; [reflexivity |]. split; [exact Hstatus |].
  unfold latency_json. rewrite H1, H2, H3, H4, H5. reflexivity.
Qed.

End Report.

Lemma scenario_A_response_witness :
  exists response,
    mongoose_begin_request_callback Example.scenario_A 0
      Example.valid_test_request
    = Returned 1 [ EvMeasure [138; 54; 5; 45; 2; 197; 150; 223; 164; 200;
                              7; 17]%Z;
                   EvPrintf response ]
    /\ Http.status_line response = "HTTP/1.1 200 OK"
    /\ Http.body response = scenario_A_body.
Proof.
  apply (scenario_A_response Example.scenario_A 0 Example.valid_test_request
           "magicPattern=8a36052d02c596dfa4c80711"
           "8a36052d02c596dfa4c80711"
           [138; 54; 5; 45; 2; 197; 150; 223; 164; 200; 7; 17]%Z
           (Example.with_metrics (double 5 0) (double 2 0) (double 1 0)
              (double 1 (-1)) (double 1 (-2)) initial_measurement));
    reflexivity.
Defined.

(** C4. With a valid test request and a measurement that fails, the
    latency report is the 500 response, and that response has the
    cross-origin header but no [Cache-Control: no-cache]: what the
    specification says of every response of the report does not hold for
    the failure response.  (The 200 response has both, see
    [report_latency_success]; so has the 500 of the hardware test.) *)
Theorem failed_measurement_may_be_cached :
  exists response,
    mongoose_begin_request_callback Example.measurement_fails 0
      Example.valid_test_request
    = Returned 1 [ EvMeasure [138; 54; 5; 45; 2; 197; 150; 223; 164; 200;
                              7; 17]%Z;
                   EvDebugLog "measure_latency reported error: Unknown error.";
                   EvPrintf response ]
    /\ Http.status_line response = "HTTP/1.1 500 Internal Server Error"
    /\ Http.headers response
       = [ "Access-Control-Allow-Origin: *"; "Content-Type: text/plain" ]
    /\ Http.has_header "Access-Control-Allow-Origin: *" response = true
    /\ Http.has_header "Cache-Control: no-cache" response = false.
Proof.
  exists (latency_error_headers ++ "Unknown error.").
  repeat split.
Qed.

(** The 500 of the hardware test does disable caching. *)
Lemma hardware_failure_not_cached (text : string) :
  Http.has_header "Cache-Control: no-cache" (hardware_error_headers ++ text)
  = true.
Proof. reflexivity. Qed.

(** ** The router *)

Section Router.

Variable E : collaborators.

(** A request for "/test" that has a query string, but no [magicPattern]
    of the required length in it or one that does not decode, is handed to
    static serving. *)
Lemma malformed_pattern_falls_through (fuel : nat) (r : mg_request_info)
    (qs : string) :
  uri r = "/test" ->
  query_string r = Some qs ->
  (let (n, hex) :=
     mg_get_var E qs (strlen qs) "magicPattern" (hex_pattern_length E + 1) in
   n <> hex_pattern_length E \/ parse_hex_magic_pattern E hex = None) ->
  mongoose_begin_request_callback E fuel r = static_outcome E r.
Proof.
  intros Huri Hqs Hbad.
  unfold mongoose_begin_request_callback, is_latency_test_request,
    static_outcome.
  rewrite Huri, Hqs. simpl streq.
  destruct (mg_get_var E qs (strlen qs) "magicPattern"
              (hex_pattern_length E + 1)) as [n hex].
  destruct (Z.eqb_spec (hex_pattern_length E) n) as [Heq | Hne].
  - destruct Hbad as [Hn | Hparse]; [congruence |].
    rewrite Hparse. reflexivity.
  - reflexivity.
Qed.

(** In a release build where "html/test" is not an asset, that is the
    fixed 404, never a 500. *)
Lemma malformed_pattern_not_found (fuel : nat) (r : mg_request_info)
    (qs : string) :
  uri r = "/test" ->
  query_string r = Some qs ->
  (let (n, hex) :=
     mg_get_var E qs (strlen qs) "magicPattern" (hex_pattern_length E + 1) in
   n <> hex_pattern_length E \/ parse_hex_magic_pattern E hex = None) ->
  ndebug E = true ->
  get_file E "html/test" = None ->
  mongoose_begin_request_callback E fuel r
  = Returned 1 [ EvGetFile "html/test"; EvPrintf not_found_response ].
Proof.
  intros Huri Hqs Hbad Hrel Hfile.
  rewrite (malformed_pattern_falls_through fuel r qs Huri Hqs Hbad).
  unfold static_outcome, serve_file_from_memory_or_404.
  rewrite Hrel, Huri. simpl. rewrite Hfile. reflexivity.
Qed.

(** C1. A request for "/test" without any query string: mongoose leaves
    [query_string] null, and [is_latency_test_request] applies [strlen] to
    it before [mg_get_var] is called.  The request does not fall through to
    static serving; what it does is undefined.  (With a query string
    present the fall-through holds: [malformed_pattern_falls_through],
    [malformed_pattern_not_found].) *)
Theorem test_without_query_string_undefined (fuel : nat) (method : string) :
  mongoose_begin_request_callback E fuel
    {| request_method := method; uri := "/test"; query_string := None |}
  = Undefined.
Proof. reflexivity. Qed.

(** C9. The router never reads the request method: a request is handled
    the same under any method; and it reads the query string only when the
    path is "/test". *)
Theorem dispatch_ignores_method (fuel : nat) (r : mg_request_info)
    (method : string) :
  mongoose_begin_request_callback E fuel (with_method method r)
  = mongoose_begin_request_callback E fuel r
  /\ (forall q : option string,
        uri r <> "/test" ->
        mongoose_begin_request_callback E fuel (with_query q r)
        = mongoose_begin_request_callback E fuel r).
Proof.
  split; [reflexivity |].
  intros q Hpath.
  unfold mongoose_begin_request_callback, is_latency_test_request,
    serve_file_from_memory_or_404.
  simpl uri. unfold streq at 1 5.
  destruct (String.eqb_spec (uri r) "/test") as [Heq | _]; [contradiction |].
  reflexivity.
Qed.

End Router.

(** Scenario C: a pattern of the wrong length is answered like an unknown
    static path, with the fixed 404. *)
Lemma scenario_C :
  mongoose_begin_request_callback Example.scenario_A 0
    (Example.get "/test" (Some "magicPattern=bad"))
  = Returned 1 [ EvGetFile "html/test"; EvPrintf not_found_response ]
  /\ mongoose_begin_request_callback Example.scenario_A 0
       (Example.get "/unknown" None)
     = Returned 1 [ EvGetFile "html/unknown"; EvPrintf not_found_response ].
Proof. split; reflexivity. Qed.

Lemma dispatch_ignores_method_witness :
  mongoose_begin_request_callback Example.scenario_A 0
    (with_method "POST" Example.valid_test_request)
  = mongoose_begin_request_callback Example.scenario_A 0
      Example.valid_test_request
  /\ mongoose_begin_request_callback Example.scenario_A 0
       (with_query (Some "magicPattern=8a36052d02c596dfa4c80711")
          (Example.get "/oculusLatencyTester" None))
     = mongoose_begin_request_callback Example.scenario_A 0
         (Example.get "/oculusLatencyTester" None).
Proof.
  split.
  - exact (proj1 (dispatch_ignores_method Example.scenario_A 0
                    Example.valid_test_request "POST")).
  - apply (proj2 (dispatch_ignores_method Example.scenario_A 0
                    (Example.get "/oculusLatencyTester" None) "POST")).
    simpl. discriminate.
Defined.

(** ** The keep-alive stream *)

Section KeepAlive.

Variable E : collaborators.

Lemma ka_run_stuck (fuel : nat) (st : ka_state) :
  ka_step E st = None -> ka_run E fuel st = ([], st).
Proof. intros H. destruct fuel; simpl; [| rewrite H]; reflexivity. Qed.

Lemma ka_run_app (a b : nat) (st : ka_state) :
  ka_run E (a + b) st
  = let (t1, s1) := ka_run E a st in
    let (t2, s2) := ka_run E b s1 in ((t1 ++ t2)%list, s2).
Proof.
  revert st. induction a as [| a IH]; intros st; simpl.
  - now destruct (ka_run E b st).
  - destruct (ka_step E st) as [[ev st'] |] eqn:Hstep.
    + rewrite IH. destruct (ka_run E a st') as [t1 s1].
      now destruct (ka_run E b s1).
    + now rewrite (ka_run_stuck b st Hstep).
Qed.

Lemma warmup_test_below (chunk : string) (i : Z) :
  (i < warmup_chunks)%Z -> warmup_test chunk i = KaWarmup chunk i.
Proof.
  intros H. unfold warmup_test.
  destruct (Z.ltb_spec i warmup_chunks); [reflexivity | lia].
Qed.

Lemma warmup_test_done (chunk : string) :
  warmup_test chunk warmup_chunks = KaLoop.
Proof. reflexivity. Qed.

Lemma warmup_run (chunk : string) (n : nat) :
  forall (i : Z) (a w : nat),
    (i + Z.of_nat n <= warmup_chunks)%Z ->
    ka_run E n {| ka_pc := warmup_test chunk i;
                  avail_calls := a; write_calls := w |}
    = (map (fun k => EvWrite chunk (mg_write_result E k)) (seq w n),
       {| ka_pc := warmup_test chunk (i + Z.of_nat n);
          avail_calls := a; write_calls := w + n |}).
Proof.
  induction n as [| n IH]; intros i a w Hle.
  - simpl. now rewrite Z.add_0_r, Nat.add_0_r.
  - rewrite warmup_test_below by lia.
    cbn [ka_run]. unfold ka_step. cbn [ka_pc avail_calls write_calls].
    rewrite IH by lia.
    replace (i + 1 + Z.of_nat n)%Z with (i + Z.of_nat (S n))%Z by lia.
    now rewrite Nat.add_succ_r.
Qed.

(** The handler up to the end of the warm-up burst. *)
Lemma ka_run_warmup :
  let b := latency_tester_available E 0 in
  ka_run E (3 + Z.to_nat warmup_chunks) ka_start
  = ((EvFetchAdd 1 :: EvPrintf keep_alive_headers :: EvAvailable b
      :: warmup_burst E (chunk_for b))%list,
     {| ka_pc := KaLoop; avail_calls := 1;
        write_calls := Z.to_nat warmup_chunks |}).
Proof.
  intros b. 
  change (3 + Z.to_nat warmup_chunks) with (S (S (S (Z.to_nat warmup_chunks)))).
  cbn [ka_run]. unfold ka_step at 1. cbn [ka_pc avail_calls write_calls ka_start].
  unfold ka_step at 1. cbn [ka_pc avail_calls write_calls].
  unfold ka_step at 1. cbn [ka_pc avail_calls write_calls]. fold b.
  rewrite warmup_run by (rewrite Z2Nat.id; unfold warmup_chunks; lia).
  rewrite Z2Nat.id by (unfold warmup_chunks; lia).
  reflexivity.
Qed.

Lemma steady_round_ok (a w : nat) :
  mg_write_result E w <> 0%Z ->
  ka_run E 3 (loop_state a w)
  = ([ EvAvailable (latency_tester_available E a);
       EvWrite (chunk_for (latency_tester_available E a))
               (mg_write_result E w);
       EvSleep (1000 * 1000) ],
     loop_state (S a) (S w)).
Proof.
  intros Hok. cbn [ka_run]. unfold ka_step at 1.
  cbn [ka_pc avail_calls write_calls loop_state].
  unfold ka_step at 1. cbn [ka_pc avail_calls write_calls].
  destruct (Z.eqb_spec (mg_write_result E w) 0) as [H0 | _]; [contradiction |].
  reflexivity.
Qed.

Lemma steady_round_fail (fuel a w : nat) :
  mg_write_result E w = 0%Z ->
  ka_run E (3 + fuel) (loop_state a w)
  = ([ EvAvailable (latency_tester_available E a);
       EvWrite (chunk_for (latency_tester_available E a)) 0;
       EvFetchAdd (-1) ],
     {| ka_pc := KaReturned; avail_calls := S a; write_calls := S w |}).
Proof.
  intros H0. change (3 + fuel) with (S (S (S fuel))).
  cbn [ka_run]. unfold ka_step at 1.
  cbn [ka_pc avail_calls write_calls loop_state].
  unfold ka_step at 1. cbn [ka_pc avail_calls write_calls].
  rewrite H0. cbn [Z.eqb].
  unfold ka_step at 1. cbn [ka_pc avail_calls write_calls].
  now rewrite ka_run_stuck.
Qed.

Lemma steady_run (n : nat) :
  forall a w : nat,
    (forall k, k < n -> mg_write_result E (w + k) <> 0%Z) ->
    ka_run E (3 * n) (loop_state a w)
    = (steady_rounds E n a w, loop_state (a + n) (w + n)).
Proof.
  induction n as [| n IH]; intros a w Hok.
  - simpl. now rewrite !Nat.add_0_r.
  - replace (3 * S n) with (3 + 3 * n) by lia.
    rewrite ka_run_app, steady_round_ok
      by (specialize (Hok 0); rewrite Nat.add_0_r in Hok; apply Hok; lia).
    rewrite IH.
    + cbn [steady_rounds app]. now rewrite !Nat.add_succ_r.
    + intros k Hk. specialize (Hok (S k)).
      rewrite Nat.add_succ_r in Hok. apply Hok. lia.
Qed.

(** Past the burst, the handler is the steady loop. *)
Lemma keep_alive_prefix (fuel : nat) :
  let b := latency_tester_available E 0 in
  let (rest, st) := ka_run E fuel (loop_state 1 (Z.to_nat warmup_chunks)) in
  ka_run E (3 + Z.to_nat warmup_chunks + fuel) ka_start
  = ((EvFetchAdd 1 :: EvPrintf keep_alive_headers :: EvAvailable b
      :: warmup_burst E (chunk_for b) ++ rest)%list, st).
Proof.
  intros b. rewrite ka_run_app, ka_run_warmup. fold b.
  fold (loop_state 1 (Z.to_nat warmup_chunks)).
  now destruct (ka_run E fuel (loop_state 1 (Z.to_nat warmup_chunks))).
Qed.

(** The stream ends at the first write of the steady loop that returns 0. *)
Lemma keep_alive_returns (n fuel : nat) :
  let b := latency_tester_available E 0 in
  let b' := latency_tester_available E (S n) in
  (forall k, k < n ->
     mg_write_result E (Z.to_nat warmup_chunks + k) <> 0%Z) ->
  mg_write_result E (Z.to_nat warmup_chunks + n) = 0%Z ->
  ka_run E (3 + Z.to_nat warmup_chunks + (3 * n + (3 + fuel))) ka_start
  = ((EvFetchAdd 1 :: EvPrintf keep_alive_headers :: EvAvailable b
      :: warmup_burst E (chunk_for b)
      ++ steady_rounds E n 1 (Z.to_nat warmup_chunks)
      ++ [ EvAvailable b'; EvWrite (chunk_for b') 0; EvFetchAdd (-1) ])%list,
     {| ka_pc := KaReturned;
        avail_calls := S (S n);
        write_calls := S (Z.to_nat warmup_chunks + n) |}).
Proof.
  intros b b' Hok Hfail.
  pose proof (keep_alive_prefix (3 * n + (3 + fuel))) as Hp.
  cbv zeta in Hp.
  rewrite ka_run_app, steady_run, steady_round_fail in Hp by assumption.
  exact Hp.
Qed.

Lemma quiet_snoc (body : list event) (ev : event) :
  quiet body -> is_fetch_add ev = false -> quiet (body ++ [ ev ]).
Proof.
  intros Hb Hev. unfold quiet. rewrite Forall_app. split; [exact Hb |].
  now constructor.
Qed.

Lemma ka_bracket_open (tr : list event) (ev : event) (pc : ka_point) :
  (exists body, tr = EvFetchAdd 1 :: body /\ quiet body) ->
  is_fetch_add ev = false ->
  ka_counted pc = true ->
  ka_bracket (tr ++ [ ev ]) pc.
Proof.
  intros (body & -> & Hq) Hev Hpc.
  assert (H : exists body',
             ((EvFetchAdd 1 :: body) ++ [ ev ])%list = EvFetchAdd 1 :: body'
             /\ quiet body').
  { exists (body ++ [ ev ])%list. split; [reflexivity |].
    now apply quiet_snoc. }
  destruct pc; simpl in Hpc; try discriminate; exact H.
Qed.

(** One step keeps the trace bracketed by the increment and, once the
    handler has returned, the decrement. *)
Lemma ka_step_bracket (tr : list event) (st st' : ka_state) (ev : event) :
  ka_bracket tr (ka_pc st) ->
  ka_step E st = Some (ev, st') ->
  ka_bracket (tr ++ [ ev ]) (ka_pc st').
Proof.
  destruct st as [pc a w]. unfold ka_step. cbn [ka_pc avail_calls write_calls].
  intros Hb Hstep.
  destruct pc; simpl in Hb; inversion Hstep; subst; clear Hstep;
    cbn [ka_pc].
  - exists []. split; [reflexivity | constructor].
  - now apply ka_bracket_open.
  - apply ka_bracket_open; [assumption | reflexivity |].
    unfold warmup_test. now destruct (0 <? warmup_chunks)%Z.
  - apply ka_bracket_open; [assumption | reflexivity |].
    unfold warmup_test. now destruct (i + 1 <? warmup_chunks)%Z.
  - now apply ka_bracket_open.
  - apply ka_bracket_open; [assumption | reflexivity |].
    now destruct (mg_write_result E w =? 0)%Z.
  - now apply ka_bracket_open.
  - destruct Hb as (body & -> & Hq). exists body. now split.
Qed.

Lemma ka_run_bracket (fuel : nat) :
  forall (tr0 : list event) (st : ka_state),
    ka_bracket tr0 (ka_pc st) ->
    ka_bracket (tr0 ++ fst (ka_run E fuel st)) (ka_pc (snd (ka_run E fuel st))).
Proof.
  induction fuel as [| fuel IH]; intros tr0 st Hb; cbn [ka_run].
  - simpl. now rewrite app_nil_r.
  - destruct (ka_step E st) as [[ev st'] |] eqn:Hstep.
    + specialize (IH (tr0 ++ [ ev ])%list st'
                     (ka_step_bracket tr0 st st' ev Hb Hstep)).
      destruct (ka_run E fuel st') as [tr st'']. simpl in *.
      now rewrite <- app_assoc in IH.
    + simpl. now rewrite app_nil_r.
Qed.

Lemma ka_start_bracket (fuel : nat) :
  ka_bracket (fst (ka_run E fuel ka_start))
             (ka_pc (snd (ka_run E fuel ka_start))).
Proof. exact (ka_run_bracket fuel [] ka_start eq_refl). Qed.
End KeepAlive.

(** Consequences of the bracket, whatever produced the trace. *)

Lemma quiet_no_fetch_add (body pre post : list event) (d : Z) :
  quiet body -> body <> (pre ++ EvFetchAdd d :: post)%list.
Proof.
  intros Hq Heq. subst body. unfold quiet in Hq.
  rewrite Forall_app in Hq. destruct Hq as [_ Hq].
  inversion Hq as [| x l Hx _]; subst. discriminate Hx.
Qed.

Lemma bracket_send_after_increment (tr : list event) (pc : ka_point)
    (pre post : list event) (ev : event) :
  ka_bracket tr pc ->
  tr = (pre ++ ev :: post)%list ->
  is_send ev = true ->
  hd_error pre = Some (EvFetchAdd 1).
Proof.
  intros Hb Heq Hsend.
  assert (Hhd : tr = [] \/ exists rest, tr = EvFetchAdd 1 :: rest).
  { destruct pc; simpl in Hb;
      try (destruct Hb as (body & -> & _); right; eexists; reflexivity).
    now left. }
  destruct Hhd as [-> | (rest & ->)].
  - now destruct pre.
  - destruct pre as [| e pre']; simpl in Heq.
    + inversion Heq; subst. discriminate Hsend.
    + inversion Heq; subst. reflexivity.
Qed.

Lemma snoc_unique (body pre post : list event) (d : Z) :
  quiet body ->
  (body ++ [ EvFetchAdd (-1) ])%list = (pre ++ EvFetchAdd d :: post)%list ->
  post = [] /\ pre = body.
Proof.
  revert pre. induction body as [| b body IH]; intros pre Hq Heq.
  - destruct pre as [| p pre']; simpl in Heq.
    + inversion Heq. now split.
    + inversion Heq as [[Hp Hnil]]. now destruct pre'.
  - destruct pre as [| p pre']; simpl in Heq.
    + inversion Heq; subst. inversion Hq as [| x l Hx _]. discriminate Hx.
    + inversion Heq; subst. inversion Hq; subst.
      destruct (IH pre') as [-> ->]; auto.
Qed.

Lemma bracket_decrement_last (tr : list event) (pc : ka_point)
    (pre post : list event) :
  ka_bracket tr pc ->
  tr = (pre ++ EvFetchAdd (-1) :: post)%list ->
  post = [] /\ pc = KaReturned.
Proof.
  intros Hb Heq.
  assert (Hopen : (exists body, tr = EvFetchAdd 1 :: body /\ quiet body) ->
                  False).
  { intros (body & Hb' & Hq). rewrite Hb' in Heq.
    destruct pre as [| p pre']; simpl in Heq; inversion Heq; subst.
    now apply (quiet_no_fetch_add _ pre' post (-1) Hq). }
  destruct pc; simpl in Hb; try (exfalso; exact (Hopen Hb)).
  - subst tr. now destruct pre.
  - destruct Hb as (body & Hb' & Hq). rewrite Hb' in Heq.
    destruct pre as [| p pre']; simpl in Heq; inversion Heq; subst.
    destruct (snoc_unique body pre' post (-1) Hq H1) as [-> _]. now split.
Qed.

Section Counter.

Variable LONG_MAX : Z.
Hypothesis LONG_MAX_pos : (0 < LONG_MAX)%Z.

Lemma wrap_long_small (z : Z) :
  (- LONG_MAX - 1 <= z <= LONG_MAX)%Z -> wrap_long LONG_MAX z = z.
Proof.
  intros H. unfold wrap_long. rewrite Z.mod_small; lia.
Qed.

Lemma wrap_long_add (a d : Z) :
  wrap_long LONG_MAX (wrap_long LONG_MAX a + d) = wrap_long LONG_MAX (a + d).
Proof.
  unfold wrap_long.
  replace ((a + (LONG_MAX + 1)) mod (2 * (LONG_MAX + 1)) - (LONG_MAX + 1) + d
           + (LONG_MAX + 1))%Z
    with ((a + (LONG_MAX + 1)) mod (2 * (LONG_MAX + 1)) + d)%Z by lia.
  rewrite Zplus_mod_idemp_l. f_equal. f_equal. lia.
Qed.

Lemma quiet_counter (body : list event) (c : Z) :
  quiet body -> fold_left (counter_after LONG_MAX) body c = c.
Proof.
  intros Hq. revert c. induction Hq as [| ev body Hev _ IH]; intros c.
  - reflexivity.
  - simpl. rewrite IH. now destruct ev.
Qed.

(** What a bracketed trace has done to the counter. *)
Lemma bracket_counter (tr : list event) (pc : ka_point) (c : Z) :
  ka_bracket tr pc ->
  (- LONG_MAX - 1 <= c < LONG_MAX)%Z ->
  fold_left (counter_after LONG_MAX) tr c
  = if ka_counted pc then (c + 1)%Z else c.
Proof.
  intros Hb Hc.
  assert (Hopen : (exists body, tr = EvFetchAdd 1 :: body /\ quiet body) ->
                  fold_left (counter_after LONG_MAX) tr c = (c + 1)%Z).
  { intros (body & -> & Hq). simpl.
    rewrite quiet_counter by assumption. apply wrap_long_small. lia. }
  destruct pc; simpl in Hb; cbn [ka_counted]; try exact (Hopen Hb).
  - now subst tr.
  - destruct Hb as (body & -> & Hq). simpl.
    rewrite fold_left_app, (quiet_counter body) by assumption. simpl.
    rewrite wrap_long_add. replace (c + 1 + -1)%Z with c by lia.
    apply wrap_long_small. lia.
Qed.

(** How one step of a handler changes whether it is counted. *)
Lemma ka_step_counted (E : collaborators) (st st' : ka_state) (ev : event)
    (k : Z) :
  ka_step E st = Some (ev, st') ->
  counter_after LONG_MAX (wrap_long LONG_MAX k) ev
  = wrap_long LONG_MAX
      (k - Z.b2z (ka_counted (ka_pc st)) + Z.b2z (ka_counted (ka_pc st'))).
Proof.
  destruct st as [pc a w]. unfold ka_step. cbn [ka_pc avail_calls write_calls].
  intros Hstep.
  assert (Hsame : wrap_long LONG_MAX k
                  = wrap_long LONG_MAX (k - Z.b2z true + Z.b2z true)).
  { f_equal. lia. }
  destruct pc; inversion Hstep; subst; clear Hstep;
    cbn [ka_pc ka_counted counter_after].
  - rewrite wrap_long_add. f_equal. simpl. lia.
  - exact Hsame.
  - unfold warmup_test. now destruct (0 <? warmup_chunks)%Z.
  - unfold warmup_test. now destruct (i + 1 <? warmup_chunks)%Z.
  - exact Hsame.
  - now destruct (mg_write_result E w =? 0)%Z.
  - exact Hsame.
  - rewrite wrap_long_add. f_equal. simpl. lia.
Qed.

Lemma counted_app (hs hs' : list (collaborators * ka_state)) :
  counted (hs ++ hs') = (counted hs + counted hs')%Z.
Proof.
  unfold counted. rewrite filter_app, length_app. lia.
Qed.

Lemma counted_cons (h : collaborators * ka_state)
    (hs : list (collaborators * ka_state)) :
  counted (h :: hs) = (Z.b2z (ka_counted (ka_pc (snd h))) + counted hs)%Z.
Proof.
  unfold counted. cbn [filter].
  destruct (ka_counted (ka_pc (snd h))); cbn [List.length Z.b2z]; lia.
Qed.

Lemma counted_set_nth (hs : list (collaborators * ka_state)) :
  forall (i : nat) (h h' : collaborators * ka_state),
    nth_error hs i = Some h ->
    counted (set_nth i h' hs)
    = (counted hs - Z.b2z (ka_counted (ka_pc (snd h)))
       + Z.b2z (ka_counted (ka_pc (snd h'))))%Z.
Proof.
  induction hs as [| x hs IH]; intros i h h' Hnth.
  - now destruct i.
  - destruct i as [| i]; cbn [nth_error set_nth] in *.
    + inversion Hnth; subst. rewrite !counted_cons. lia.
    + rewrite !counted_cons, (IH i h h' Hnth). lia.
Qed.

Lemma counted_bounds (hs : list (collaborators * ka_state)) :
  (0 <= counted hs <= Z.of_nat (List.length hs))%Z.
Proof.
  unfold counted. pose proof (filter_length_le
    (fun h : collaborators * ka_state => ka_counted (ka_pc (snd h))) hs). lia.
Qed.

(** The counter is the number of handlers between their increment and
    their decrement, at every point of every interleaving. *)
Lemma process_step_counter (cfg : startup) (p : process) (t : turn) :
  keep_alives p = wrap_long LONG_MAX (counted (handlers p)) ->
  keep_alives (process_step LONG_MAX cfg p t)
  = wrap_long LONG_MAX (counted (handlers (process_step LONG_MAX cfg p t))).
Proof.
  intros Hinv. destruct t as [| E | i]; cbn [process_step].
  - destruct (ctl_step cfg (control p) (keep_alives p)) as [[evs pc] |];
      assumption.
  - cbn [keep_alives handlers]. rewrite counted_app.
    unfold counted at 2. simpl. now rewrite Z.add_0_r.
  - destruct (nth_error (handlers p) i) as [[E st] |] eqn:Hnth;
      [| assumption].
    destruct (ka_step E st) as [[ev st'] |] eqn:Hstep; [| assumption].
    cbn [keep_alives handlers].
    rewrite (counted_set_nth (handlers p) i (E, st) (E, st') Hnth).
    rewrite Hinv. cbn [snd].
    exact (ka_step_counted E st st' ev (counted (handlers p)) Hstep).
Qed.

Lemma process_run_counter (cfg : startup) (schedule : list turn) :
  let p := process_run LONG_MAX cfg schedule in
  keep_alives p = wrap_long LONG_MAX (counted (handlers p)).
Proof.
  unfold process_run.
  assert (H : forall p,
             keep_alives p = wrap_long LONG_MAX (counted (handlers p)) ->
             keep_alives (fold_left (process_step LONG_MAX cfg) schedule p)
             = wrap_long LONG_MAX
                 (counted (handlers
                    (fold_left (process_step LONG_MAX cfg) schedule p)))).
  { induction schedule as [| t schedule IH]; intros p Hp; simpl.
    - exact Hp.
    - apply IH. now apply process_step_counter. }
  apply H. simpl. unfold counted. simpl. symmetry. apply wrap_long_small. lia.
Qed.

End Counter.

Section Termination.

Variable E : collaborators.

Lemma ka_step_progress (st st' : ka_state) (ev : event) :
  ka_progress E st ->
  ka_step E st = Some (ev, st') ->
  ka_progress E st'.
Proof.
  destruct st as [pc a w]. unfold ka_step, ka_progress.
  cbn [ka_pc avail_calls write_calls].
  intros Hp Hstep.
  destruct pc; inversion Hstep; subst ev st'; clear Hstep;
    cbn [ka_pc avail_calls write_calls].
  - exact Hp.
  - exact Hp.
  - rewrite warmup_test_below by (unfold warmup_chunks; lia).
    split; [unfold warmup_chunks; lia | exact Hp].
  - destruct Hp as [Hi ->]. unfold warmup_test.
    destruct (Z.ltb_spec (i + 1) warmup_chunks) as [Hlt | Hge].
    + split; [lia |]. rewrite Z2Nat.inj_add by lia. simpl. lia.
    + assert (Hw : S (Z.to_nat i) = Z.to_nat warmup_chunks) by lia.
      rewrite Hw. split; [lia | intros k Hk; lia].
  - exact Hp.
  - destruct Hp as [Hw Hok].
    destruct (Z.eqb_spec (mg_write_result E w) 0) as [H0 | Hne].
    + replace (S w - 1) with w by lia. repeat split; [lia | exact H0 |].
      intros k Hk. apply Hok. lia.
    + split; [lia |]. intros k Hk.
      destruct (Nat.eq_dec k w) as [-> | Hkw]; [exact Hne | apply Hok; lia].
  - exact Hp.
  - exact Hp.
Qed.

Lemma ka_run_progress (fuel : nat) :
  forall st : ka_state,
    ka_progress E st -> ka_progress E (snd (ka_run E fuel st)).
Proof.
  induction fuel as [| fuel IH]; intros st Hp; cbn [ka_run].
  - exact Hp.
  - destruct (ka_step E st) as [[ev st'] |] eqn:Hstep; [| exact Hp].
    specialize (IH st' (ka_step_progress st st' ev Hp Hstep)).
    now destruct (ka_run E fuel st').
Qed.

(** A handler that has returned has seen a write of the steady loop
    return 0, the first to do so. *)
Lemma returned_after_failed_write (fuel : nat) :
  ka_pc (snd (ka_run E fuel ka_start)) = KaReturned ->
  exists n : nat,
    mg_write_result E (Z.to_nat warmup_chunks + n) = 0%Z
    /\ forall k, k < n ->
         mg_write_result E (Z.to_nat warmup_chunks + k) <> 0%Z.
Proof.
  intros Hret.
  pose proof (ka_run_progress fuel ka_start eq_refl) as Hp.
  unfold ka_progress in Hp. rewrite Hret in Hp.
  destruct Hp as (Hw & H0 & Hok).
  set (w := write_calls (snd (ka_run E fuel ka_start))) in *.
  exists (w - 1 - Z.to_nat warmup_chunks). split.
  - replace (Z.to_nat warmup_chunks + (w - 1 - Z.to_nat warmup_chunks))
      with (w - 1) by lia.
    exact H0.
  - intros k Hk. apply Hok. lia.
Qed.

End Termination.

(** ** The control loop *)

Section ControlLoop.

Variable cfg : startup.

(** While the counter reads 0 the first loop sleeps and stays. *)
Lemma wait_activity_holds (reads : list Z) :
  Forall (fun k => k = 0%Z) reads ->
  ctl_run cfg reads CtlWaitActivity
  = (repeat (EvSleep (1000 * 1000)) (List.length reads), CtlWaitActivity).
Proof.
  induction 1 as [| k reads Hk _ IH]; [reflexivity |].
  subst k. cbn [ctl_run ctl_step Z.eqb]. rewrite IH. reflexivity.
Qed.

(** While the counter reads above 0 the second loop sleeps and stays. *)
Lemma wait_quiescence_holds (reads : list Z) :
  Forall (fun k => (0 < k)%Z) reads ->
  ctl_run cfg reads CtlWaitQuiescence
  = (repeat (EvSleep (1000 * 100)) (List.length reads), CtlWaitQuiescence).
Proof.
  induction 1 as [| k reads Hk _ IH]; [reflexivity |].
  cbn [ctl_run ctl_step].
  destruct (Z.gtb_spec k 0) as [_ | Hle]; [| lia].
  rewrite IH. reflexivity.
Qed.

Lemma ctl_run_stuck (reads : list Z) (pc : ctl_point) :
  (forall k, ctl_step cfg pc k = None) -> ctl_run cfg reads pc = ([], pc).
Proof. intros H. destruct reads; cbn [ctl_run]; [| rewrite H]; reflexivity. Qed.

Lemma ctl_run_app (r1 r2 : list Z) :
  forall pc : ctl_point,
    ctl_run cfg (r1 ++ r2) pc
    = let (t1, p1) := ctl_run cfg r1 pc in
      let (t2, p2) := ctl_run cfg r2 p1 in ((t1 ++ t2)%list, p2).
Proof.
  induction r1 as [| k r1 IH]; intros pc; cbn [app ctl_run].
  - now destruct (ctl_run cfg r2 pc).
  - destruct (ctl_step cfg pc k) as [[evs pc'] |] eqn:Hstep.
    + rewrite IH. destruct (ctl_run cfg r1 pc') as [t1 p1].
      destruct (ctl_run cfg r2 p1) as [t2 p2]. now rewrite app_assoc.
    + assert (Hstuck : forall k', ctl_step cfg pc k' = None).
      { intros k'. destruct pc; simpl in Hstep |- *; try reflexivity;
          try discriminate.
        - destruct (listener_started cfg); discriminate.
        - destruct (k =? 0)%Z; discriminate.
        - destruct (k >? 0)%Z; discriminate. }
      now rewrite ctl_run_stuck.
Qed.

(** Once the counter has read non-zero and then not above zero, the
    listener is stopped and [run_server] returns. *)
Lemma gate_opens (zs ps rest : list Z) (x y z : Z) :
  Forall (fun k => k = 0%Z) zs ->
  x <> 0%Z ->
  Forall (fun k => (0 < k)%Z) ps ->
  (y <= 0)%Z ->
  ctl_run cfg (zs ++ x :: ps ++ y :: z :: rest) CtlWaitActivity
  = ((repeat (EvSleep (1000 * 1000)) (List.length zs)
      ++ repeat (EvSleep (1000 * 100)) (List.length ps)
      ++ [ EvStop ])%list,
     CtlReturned).
Proof.
  intros Hzs Hx Hps Hy.
  rewrite ctl_run_app, wait_activity_holds by assumption.
  cbn [ctl_run ctl_step].
  destruct (Z.eqb_spec x 0) as [H0 | _]; [contradiction |].
  rewrite ctl_run_app, wait_quiescence_holds by assumption.
  cbn [ctl_run ctl_step].
  destruct (Z.gtb_spec y 0) as [Hgt | _]; [lia |].
  cbn [ctl_step]. rewrite ctl_run_stuck by reflexivity.
  reflexivity.
Qed.

Lemma quiescence_passed (reads : list Z) :
  passed (fst (ctl_run cfg reads CtlWaitQuiescence))
         (snd (ctl_run cfg reads CtlWaitQuiescence)) ->
  exists ps y rest,
    reads = (ps ++ y :: rest)%list
    /\ Forall (fun k => (0 < k)%Z) ps /\ (y <= 0)%Z.
Proof.
  induction reads as [| k reads IH]; cbn [ctl_run ctl_step].
  - intros [H | [H | H]]; [destruct H | discriminate H | discriminate H].
  - destruct (Z.gtb_spec k 0) as [Hgt | Hle].
    + destruct (ctl_run cfg reads CtlWaitQuiescence) as [tr pc] eqn:Hrun.
      cbn [fst snd app]. intros Hpassed.
      destruct IH as (ps & y & rest & -> & Hps & Hy).
      { destruct Hpassed as [[Habs | Hin] | Hpc];
          [discriminate Habs | now left | now right]. }
      exists (k :: ps), y, rest. repeat split; [| assumption].
      constructor; [lia | assumption].
    + intros _. exists [], k, reads. repeat split; [constructor | assumption].
Qed.

Lemma activity_passed (reads : list Z) :
  passed (fst (ctl_run cfg reads CtlWaitActivity))
         (snd (ctl_run cfg reads CtlWaitActivity)) ->
  exists zs x ps y rest,
    reads = (zs ++ x :: ps ++ y :: rest)%list
    /\ Forall (fun k => k = 0%Z) zs /\ x <> 0%Z
    /\ Forall (fun k => (0 < k)%Z) ps /\ (y <= 0)%Z.
Proof.
  induction reads as [| k reads IH]; cbn [ctl_run ctl_step].
  - intros [H | [H | H]]; [destruct H | discriminate H | discriminate H].
  - destruct (Z.eqb_spec k 0) as [H0 | Hne].
    + destruct (ctl_run cfg reads CtlWaitActivity) as [tr pc] eqn:Hrun.
      cbn [fst snd app]. intros Hpassed.
      destruct IH as (zs & x & ps & y & rest & -> & Hzs & Hx & Hps & Hy).
      { destruct Hpassed as [[Habs | Hin] | Hpc];
          [discriminate Habs | now left | now right]. }
      exists (k :: zs), x, ps, y, rest. repeat split; try assumption.
      now constructor.
    + destruct (ctl_run cfg reads CtlWaitQuiescence) as [tr pc] eqn:Hrun.
      cbn [fst snd app]. intros Hpassed.
      destruct (quiescence_passed reads) as (ps & y & rest & -> & Hps & Hy).
      { now rewrite Hrun. }
      exists [], k, ps, y, rest. repeat split; try assumption. constructor.
Qed.

End ControlLoop.

(** ** The burst and the end of the keep-alive stream *)

Section Stream.

Variable E : collaborators.

Lemma warmup_burst_length (chunk : string) :
  List.length (warmup_burst E chunk) = 2048.
Proof. unfold warmup_burst. now rewrite length_map, length_seq. Qed.

Lemma warmup_burst_chunks (chunk : string) :
  Forall (fun ev => exists ret, ev = EvWrite chunk ret) (warmup_burst E chunk).
Proof.
  unfold warmup_burst. rewrite Forall_map, Forall_forall.
  intros k _. now eexists.
Qed.

(** C8. After the headers the handler writes exactly 2048 warm-up chunks,
    one after the other, before the steady loop takes its first sample;
    each carries the status byte of the availability sampled at the start,
    '1' if the tester was available and '0' otherwise, so that with the
    tester absent 2048 consecutive '0' chunks come first.  The chunks that
    follow are those of the steady loop, each followed by a sleep of one
    second for as long as the write does not return 0. *)
Theorem warmup_burst_before_steady_chunks (fuel : nat) :
  let b := latency_tester_available E 0 in
  let burst := warmup_burst E (chunk_for b) in
  let start := loop_state 1 (Z.to_nat warmup_chunks) in
  fst (ka_run E (3 + Z.to_nat warmup_chunks + fuel) ka_start)
  = (EvFetchAdd 1 :: EvPrintf keep_alive_headers :: EvAvailable b
     :: burst ++ fst (ka_run E fuel start))%list
  /\ List.length burst = 2048
  /\ Forall (fun ev => exists ret, ev = EvWrite (chunk_for b) ret) burst
  /\ status_byte (chunk_for b) = Some (if b then "1"%char else "0"%char)
  /\ (b = false ->
      Forall (fun ev => exists ret, ev = EvWrite chunk0 ret) burst
      /\ status_byte chunk0 = Some "0"%char)
  /\ (forall n : nat,
        (forall k, k < n ->
           mg_write_result E (Z.to_nat warmup_chunks + k) <> 0%Z) ->
        ka_run E (3 * n) start
        = (steady_rounds E n 1 (Z.to_nat warmup_chunks),
           loop_state (1 + n) (Z.to_nat warmup_chunks + n))).
Proof.
  intros b burst start.
  split; [| split; [| split; [| split; [| split]]]].
  - pose proof (keep_alive_prefix E fuel) as Hp. cbv zeta in Hp.
    fold start b burst in Hp.
    destruct (ka_run E fuel start) as [rest st]. now rewrite Hp.
  - apply warmup_burst_length.
  - apply warmup_burst_chunks.
  - clearbody b. now destruct b.
  - intros Hb. split; [| reflexivity].
    unfold burst. rewrite Hb. apply (warmup_burst_chunks chunk0).
  - intros n Hok. now apply steady_run.
Qed.

(** C10. Availability is sampled once, before the burst, and every chunk
    of the burst carries the status byte of that sample, '1' if the tester
    was available at the start of the connection and '0' otherwise; the
    burst is 2048 writes whatever they return; the handler returns only
    after a write of the steady loop has returned 0, and it does return at
    the first such write. *)
Theorem burst_ignores_failures_loop_ends_on_one (fuel : nat) :
  let b := latency_tester_available E 0 in
  let burst := Z.to_nat warmup_chunks in
  let run := ka_run E (3 + burst + fuel) ka_start in
  (exists rest,
     fst run
     = ([ EvFetchAdd 1; EvPrintf keep_alive_headers; EvAvailable b ]
        ++ map (fun k => EvWrite (chunk_for b) (mg_write_result E k))
               (seq 0 burst)
        ++ rest)%list)
  /\ status_byte (chunk_for b) = Some (if b then "1"%char else "0"%char)
  /\ List.length
       (map (fun k => EvWrite (chunk_for b) (mg_write_result E k))
            (seq 0 burst)) = 2048
  /\ (ka_pc (snd run) = KaReturned ->
      exists n : nat,
        mg_write_result E (burst + n) = 0%Z
        /\ forall k, k < n -> mg_write_result E (burst + k) <> 0%Z)
  /\ (forall n : nat,
        (forall k, k < n -> mg_write_result E (burst + k) <> 0%Z) ->
        mg_write_result E (burst + n) = 0%Z ->
        3 * n + 3 <= fuel ->
        ka_pc (snd run) = KaReturned
        /\ write_calls (snd run) = burst + n + 1
        /\ avail_calls (snd run) = n + 2).
Proof.
  intros b burst run. split; [| split; [| split; [| split]]].
  - pose proof (keep_alive_prefix E fuel) as Hp. cbv zeta in Hp.
    destruct (ka_run E fuel (loop_state 1 (Z.to_nat warmup_chunks)))
      as [rest st].
    exists rest. unfold run, burst. now rewrite Hp.
  - clearbody b. now destruct b.
  - now rewrite length_map, length_seq.
  - apply returned_after_failed_write.
  - intros n Hok Hfail Hfuel. unfold run.
    replace fuel with (3 * n + (3 + (fuel - (3 * n + 3)))) by lia.
    unfold burst in *. rewrite keep_alive_returns by assumption.
    cbn [snd ka_pc write_calls avail_calls]. repeat split; lia.
Qed.

End Stream.

Lemma warmup_burst_before_steady_chunks_witness :
  Forall (fun ev => exists ret, ev = EvWrite chunk0 ret)
         (warmup_burst Example.measurement_fails chunk0)
  /\ status_byte chunk0 = Some "0"%char.
Proof.
  apply (proj1 (proj2 (proj2 (proj2 (proj2
           (warmup_burst_before_steady_chunks Example.measurement_fails
              0)))))).
  reflexivity.
Defined.

Lemma burst_ignores_failures_loop_ends_on_one_witness :
  let run :=
    ka_run Example.failing_burst (3 + Z.to_nat warmup_chunks + 9) ka_start in
  status_byte (chunk_for (latency_tester_available Example.failing_burst 0))
  = Some "0"%char
  /\ ka_pc (snd run) = KaReturned
  /\ write_calls (snd run) = Z.to_nat warmup_chunks + 2 + 1
  /\ avail_calls (snd run) = 2 + 2.
Proof.
  pose proof (burst_ignores_failures_loop_ends_on_one
                Example.failing_burst 9) as H.
  cbv zeta in H. destruct H as (_ & Hbyte & _ & _ & Hends).
  split; [exact Hbyte |].
  apply (Hends 2).
  - intros k Hk. destruct k as [| [| k]]; [discriminate | discriminate | lia].
  - reflexivity.
  - simpl. lia.
Defined.

(** ** The counter around a keep-alive stream *)

Section Bracket.

Variable LONG_MAX : Z.
Hypothesis LONG_MAX_pos : (0 < LONG_MAX)%Z.

(** The handler does act: given one step it has incremented the counter,
    given two it has written the headers after that. *)
Lemma ka_run_starts (E : collaborators) (fuel : nat) :
  (1 <= fuel ->
   hd_error (fst (ka_run E fuel ka_start)) = Some (EvFetchAdd 1))
  /\ (2 <= fuel ->
      exists rest,
        fst (ka_run E fuel ka_start)
        = EvFetchAdd 1 :: EvPrintf keep_alive_headers :: rest).
Proof.
  split; intros Hfuel.
  - destruct fuel as [| fuel]; [lia |].
    cbn [ka_run]. unfold ka_step at 1. cbn [ka_pc ka_start].
    now destruct (ka_run E fuel _).
  - destruct fuel as [| [| fuel]]; [lia | lia |].
    cbn [ka_run]. unfold ka_step at 1. cbn [ka_pc ka_start].
    unfold ka_step at 1. cbn [ka_pc avail_calls write_calls].
    destruct (ka_run E fuel _) as [rest st]. now exists rest.
Qed.

Lemma ka_counted_between (pc : ka_point) :
  pc <> KaEnter -> pc <> KaReturned -> ka_counted pc = true.
Proof. destruct pc; intros H1 H2; reflexivity || contradiction. Qed.

(** C2. In every execution of the keep-alive handler, stopped anywhere.
    The handler does increment: its first step is the increment, before
    any write to the connection, and its second the write of the headers;
    from its first step until it returns the counter, started within the
    range of [long] below [LONG_MAX], is up by exactly one.  The
    decrement, where it occurs, is the last thing the handler does and it
    has then returned; it returns in no other way, and the counter is then
    back at its value.  It does return, through the decrement, at the
    first write of the steady loop that returns 0.  And in every
    interleaving of the main thread with any number of handlers the
    counter is the number of handlers between their increment and their
    decrement. *)
Theorem keep_alive_counter_bracket (E : collaborators) (fuel : nat) (c : Z) :
  (- LONG_MAX - 1 <= c < LONG_MAX)%Z ->
  let tr := fst (ka_run E fuel ka_start) in
  let st := snd (ka_run E fuel ka_start) in
  let burst := Z.to_nat warmup_chunks in
  (1 <= fuel ->
   hd_error tr = Some (EvFetchAdd 1) /\ ka_pc st <> KaEnter)
  /\ (2 <= fuel ->
      exists rest,
        tr = EvFetchAdd 1 :: EvPrintf keep_alive_headers :: rest)
  /\ (1 <= fuel -> ka_pc st <> KaReturned ->
      ka_counted (ka_pc st) = true
      /\ fold_left (counter_after LONG_MAX) tr c = (c + 1)%Z)
  /\ (forall pre ev post,
        tr = (pre ++ ev :: post)%list -> is_send ev = true ->
        hd_error pre = Some (EvFetchAdd 1))
  /\ (forall pre post,
        tr = (pre ++ EvFetchAdd (-1) :: post)%list ->
        post = [] /\ ka_pc st = KaReturned /\ ka_step E st = None)
  /\ (ka_pc st = KaReturned ->
      (exists body,
         tr = (EvFetchAdd 1 :: body ++ [ EvFetchAdd (-1) ])%list
         /\ quiet body)
      /\ fold_left (counter_after LONG_MAX) tr c = c)
  /\ fold_left (counter_after LONG_MAX) tr c
     = (if ka_counted (ka_pc st) then c + 1 else c)%Z
  /\ (forall n : nat,
        (forall k, k < n -> mg_write_result E (burst + k) <> 0%Z) ->
        mg_write_result E (burst + n) = 0%Z ->
        3 + burst + (3 * n + 3) <= fuel ->
        ka_pc st = KaReturned
        /\ last tr (EvFetchAdd 1) = EvFetchAdd (-1)
        /\ fold_left (counter_after LONG_MAX) tr c = c)
  /\ (forall (cfg : startup) (schedule : list turn),
        let p := process_run LONG_MAX cfg schedule in
        keep_alives p = wrap_long LONG_MAX (counted (handlers p))).
Proof.
  intros Hc tr st burst.
  pose proof (ka_start_bracket E fuel) as Hb. fold tr st in Hb.
  pose proof (bracket_counter LONG_MAX tr (ka_pc st) c Hb Hc) as Hcount.
  assert (Hstarted : 1 <= fuel ->
                     hd_error tr = Some (EvFetchAdd 1)
                     /\ ka_pc st <> KaEnter).
  { intros Hfuel.
    pose proof (proj1 (ka_run_starts E fuel) Hfuel) as Hhd. fold tr in Hhd.
    split; [exact Hhd |].
    intros Hpc. rewrite Hpc in Hb. simpl in Hb. rewrite Hb in Hhd.
    discriminate Hhd. }
  split; [exact Hstarted |].
  split; [exact (proj2 (ka_run_starts E fuel)) |].
  split.
  { intros Hfuel Hopen. destruct (Hstarted Hfuel) as [_ Hentered].
    pose proof (ka_counted_between (ka_pc st) Hentered Hopen) as Hin.
    split; [exact Hin |]. now rewrite Hcount, Hin. }
  split.
  { intros pre ev post Heq Hsend.
    exact (bracket_send_after_increment tr (ka_pc st) pre post ev
             Hb Heq Hsend). }
  split.
  { intros pre post Heq.
    destruct (bracket_decrement_last tr (ka_pc st) pre post Hb Heq)
      as [Hpost Hpc].
    repeat split; try assumption.
    destruct st as [pc a w]. simpl in Hpc. now subst pc. }
  split.
  { intros Hret. split.
    - rewrite Hret in Hb. exact Hb.
    - now rewrite Hcount, Hret. }
  split; [exact Hcount |].
  split.
  { intros n Hok Hfail Hfuel.
    assert (Hrun : ka_run E fuel ka_start
                   = (tr, st)) by (unfold tr, st; now destruct (ka_run _ _ _)).
    replace fuel
      with (3 + Z.to_nat warmup_chunks
            + (3 * n + (3 + (fuel - (3 + burst + (3 * n + 3))))))
      in Hrun by (unfold burst in *; lia).
    rewrite (keep_alive_returns E n _ Hok Hfail) in Hrun.
    assert (Hret : ka_pc st = KaReturned).
    { apply (f_equal (fun x => ka_pc (snd x))) in Hrun.
      cbn [snd ka_pc] in Hrun. now symmetry. }
    split; [exact Hret |]. split.
    - rewrite Hret in Hb. destruct Hb as (body & Hbody & _).
      rewrite Hbody. rewrite app_comm_cons. apply last_last.
    - now rewrite Hcount, Hret. }
  intros cfg schedule. now apply process_run_counter.
Qed.

(** With no more handlers than [LONG_MAX] the counter has not wrapped: it
    is zero exactly when no handler is between increment and decrement. *)
Lemma keep_alives_is_count (cfg : startup) (schedule : list turn) :
  let p := process_run LONG_MAX cfg schedule in
  (Z.of_nat (List.length (handlers p)) <= LONG_MAX)%Z ->
  keep_alives p = counted (handlers p).
Proof.
  intros p Hlen. unfold p. rewrite process_run_counter by assumption.
  fold p. pose proof (counted_bounds (handlers p)).
  apply wrap_long_small; lia.
Qed.

End Bracket.

Lemma keep_alive_counter_bracket_witness :
  let fuel := 3 + Z.to_nat warmup_chunks + (3 * 2 + 3) in
  let run := ka_run Example.failing_burst fuel ka_start in
  hd_error (fst run) = Some (EvFetchAdd 1)
  /\ ka_pc (snd run) = KaReturned
  /\ last (fst run) (EvFetchAdd 1) = EvFetchAdd (-1)
  /\ fold_left (counter_after long_max_64) (fst run) 0%Z = 0%Z
  /\ fold_left (counter_after long_max_64)
       (fst (ka_run Example.failing_burst 5 ka_start)) 0%Z
     = 1%Z.
Proof.
  intros fuel run.
  assert (Hpos : (0 < long_max_64)%Z) by reflexivity.
  assert (Hc : (- long_max_64 - 1 <= 0 < long_max_64)%Z)
    by (split; [discriminate | reflexivity]).
  pose proof (keep_alive_counter_bracket long_max_64 Hpos
                Example.failing_burst fuel 0%Z Hc) as Hlong.
  pose proof (keep_alive_counter_bracket long_max_64 Hpos
                Example.failing_burst 5 0%Z Hc) as Hshort.
  cbv zeta in Hlong, Hshort.
  destruct Hlong as (Hstart & _ & _ & _ & _ & _ & _ & Hends & _).
  destruct Hshort as (_ & _ & Hup & _).
  assert (Hfuel : 1 <= fuel) by (unfold fuel; lia).
  assert (Hok : forall k, k < 2 ->
                  mg_write_result Example.failing_burst
                    (Z.to_nat warmup_chunks + k) <> 0%Z).
  { intros k Hk. destruct k as [| [| k]]; [discriminate | discriminate | lia]. }
  destruct (Hends 2 Hok eq_refl (Nat.le_refl _)) as (Hret & Hlast & Hzero).
  split; [exact (proj1 (Hstart Hfuel)) |].
  split; [exact Hret |]. split; [exact Hlast |]. split; [exact Hzero |].
  apply Hup; [lia | discriminate].
Defined.

(** ** The two waits of the control loop *)

Section Gate.

Variable cfg : startup.

Lemma no_stop_in_sleeps (usec : Z) (n : nat) :
  ~ In EvStop (repeat (EvSleep usec) n).
Proof. intros Hin. apply repeat_spec in Hin. discriminate Hin. Qed.

(** From the start, with the listener up, [run_server] reaches the first
    wait. *)
Lemma run_server_reaches_gate (k : Z) (reads : list Z) :
  listener_started cfg = true ->
  exists prefix,
    ctl_run cfg (k :: reads) CtlStart
    = ((prefix ++ fst (ctl_run cfg reads CtlWaitActivity))%list,
       snd (ctl_run cfg reads CtlWaitActivity))
    /\ ~ In EvStop prefix.
Proof.
  intros Hup. cbn [ctl_run ctl_step]. rewrite Hup.
  destruct (ctl_run cfg reads CtlWaitActivity) as [tr pc].
  eexists. split; [reflexivity |].
  destruct (browser_opened cfg); simpl; intuition discriminate.
Qed.

(** C3. The control loop, given the values [reads] the counter shows at
    its successive tests: while they are all 0 it stays in the first wait;
    once one was not 0, it stays in the second wait while they are all
    above 0; it stops the listener, or stands past the second wait, only
    when a value that is not 0 was followed, after values above 0 only, by
    one that is not above 0; and then it does stop the listener and
    returns. *)
Theorem control_loop_two_phase_gate (reads : list Z) :
  let tr := fst (ctl_run cfg reads CtlWaitActivity) in
  let pc := snd (ctl_run cfg reads CtlWaitActivity) in
  (Forall (fun k => k = 0%Z) reads ->
   pc = CtlWaitActivity /\ ~ In EvStop tr)
  /\ (forall zs x ps,
        reads = (zs ++ x :: ps)%list ->
        Forall (fun k => k = 0%Z) zs -> x <> 0%Z ->
        Forall (fun k => (0 < k)%Z) ps ->
        pc = CtlWaitQuiescence /\ ~ In EvStop tr)
  /\ (passed tr pc ->
      exists zs x ps y rest,
        reads = (zs ++ x :: ps ++ y :: rest)%list
        /\ Forall (fun k => k = 0%Z) zs /\ x <> 0%Z
        /\ Forall (fun k => (0 < k)%Z) ps /\ (y <= 0)%Z)
  /\ (forall zs x ps y z rest,
        reads = (zs ++ x :: ps ++ y :: z :: rest)%list ->
        Forall (fun k => k = 0%Z) zs -> x <> 0%Z ->
        Forall (fun k => (0 < k)%Z) ps -> (y <= 0)%Z ->
        pc = CtlReturned
        /\ tr = (repeat (EvSleep (1000 * 1000)) (List.length zs)
                 ++ repeat (EvSleep (1000 * 100)) (List.length ps)
                 ++ [ EvStop ])%list).
Proof.
  intros tr pc. split; [| split; [| split]].
  - intros Hzero. unfold tr, pc.
    rewrite wait_activity_holds by assumption.
    split; [reflexivity | apply no_stop_in_sleeps].
  - intros zs x ps -> Hzs Hx Hps. unfold tr, pc.
    rewrite ctl_run_app, wait_activity_holds by assumption.
    cbn [ctl_run ctl_step].
    destruct (Z.eqb_spec x 0) as [H0 | _]; [contradiction |].
    rewrite wait_quiescence_holds by assumption. cbn [fst snd app].
    split; [reflexivity |].
    intros Hin. apply in_app_or in Hin.
    destruct Hin as [Hin | Hin]; exact (no_stop_in_sleeps _ _ Hin).
  - apply activity_passed.
  - intros zs x ps y z rest -> Hzs Hx Hps Hy. unfold tr, pc.
    rewrite gate_opens by assumption. split; reflexivity.
Qed.

End Gate.

(** In the process the values read are those of the counter: the main
    thread stays in the first wait while no handler is between increment
    and decrement, and in the second while one is. *)
Lemma main_thread_gated (LONG_MAX : Z) (cfg : startup) (schedule : list turn) :
  (0 < LONG_MAX)%Z ->
  let p := process_run LONG_MAX cfg schedule in
  (Z.of_nat (List.length (handlers p)) <= LONG_MAX)%Z ->
  (control p = CtlWaitActivity -> counted (handlers p) = 0%Z ->
   control (process_step LONG_MAX cfg p Main) = CtlWaitActivity)
  /\ (control p = CtlWaitQuiescence -> (0 < counted (handlers p))%Z ->
      control (process_step LONG_MAX cfg p Main) = CtlWaitQuiescence).
Proof.
  intros Hpos p Hlen.
  pose proof (keep_alives_is_count LONG_MAX Hpos cfg schedule Hlen) as Hk.
  fold p in Hk. cbn [process_step].
  split; intros Hpc Hcount; rewrite Hpc, Hk; cbn [ctl_step].
  - rewrite Hcount. reflexivity.
  - destruct (Z.gtb_spec (counted (handlers p)) 0) as [_ | Hle];
      [reflexivity | lia].
Qed.

Lemma control_loop_two_phase_gate_witness :
  snd (ctl_run Example.started [0; 0; 1; 2; 1; 0; 0]%Z CtlWaitActivity)
  = CtlReturned
  /\ fst (ctl_run Example.started [0; 0; 1; 2; 1; 0; 0]%Z CtlWaitActivity)
     = (repeat (EvSleep (1000 * 1000)) 2
        ++ repeat (EvSleep (1000 * 100)) 2 ++ [ EvStop ])%list.
Proof.
  apply (proj2 (proj2 (proj2
           (control_loop_two_phase_gate Example.started
              [0; 0; 1; 2; 1; 0; 0]%Z)))
           [0; 0]%Z 1%Z [2; 1]%Z 0%Z 0%Z []).
  - reflexivity.
  - repeat constructor.
  - discriminate.
  - repeat constructor.
  - discriminate.
Defined.

(** * Further properties *)

(** ** The cases of the router *)

Section Kinds.
Variable E : collaborators.

Lemma ka_step_stream_event (st st' : ka_state) (ev : event) :
  ka_step E st = Some (ev, st') -> stream_event ev.
Proof.
  destruct st as [pc a w]. unfold ka_step. cbn [ka_pc avail_calls write_calls].
  intros Hstep.
  destruct pc; inversion Hstep; subst ev st'; exact I || reflexivity.
Qed.

Lemma ka_run_stream_events (fuel : nat) :
  forall st : ka_state, Forall stream_event (fst (ka_run E fuel st)).
Proof.
  induction fuel as [| fuel IH]; intros st; cbn [ka_run].
  - constructor.
  - destruct (ka_step E st) as [[ev st'] |] eqn:Hstep; [| constructor].
    specialize (IH st'). destruct (ka_run E fuel st') as [tr st''].
    constructor; [exact (ka_step_stream_event st st' ev Hstep) | exact IH].
Qed.

(** Every call of the router is one of the cases of [routed]. *)
Lemma router_routed (fuel : nat) (r : mg_request_info) :
  routed E r (mongoose_begin_request_callback E fuel r).
Proof.
  unfold mongoose_begin_request_callback, is_latency_test_request.
  unfold streq.
  destruct (String.eqb_spec (uri r) "/test") as [Htest | Hntest].
  - destruct (query_string r) as [qs |] eqn:Hqs;
      [| now apply RoutedNullQuery].
    destruct (mg_get_var E qs (strlen qs) "magicPattern"
                (hex_pattern_length E + 1)) as [n hex] eqn:Hvar.
    assert (Hstatic :
              (n <> hex_pattern_length E
               \/ parse_hex_magic_pattern E hex = None) ->
              routed E r (static_outcome E r)).
    { intros Hbad. apply RoutedStatic; try (rewrite Htest; discriminate).
      intros _. exists qs. split; [exact Hqs |]. now rewrite Hvar. }
    assert (H1 : (uri r =? "/keepServerAlive") = false)
      by (rewrite Htest; reflexivity).
    assert (H2 : (uri r =? "/runControlTest") = false)
      by (rewrite Htest; reflexivity).
    assert (H3 : (uri r =? "/oculusLatencyTester") = false)
      by (rewrite Htest; reflexivity).
    rewrite H1, H2, H3. fold (static_outcome E r).
    destruct (Z.eqb_spec (hex_pattern_length E) n) as [Hn | Hn].
    + destruct (parse_hex_magic_pattern E hex) as [pattern |] eqn:Hparse.
      * subst n. now apply (RoutedTest E r qs hex pattern).
      * apply Hstatic. now right.
    + apply Hstatic. left. congruence.
  - destruct (String.eqb_spec (uri r) "/keepServerAlive") as [Hka | Hnka].
    { pose proof (RoutedStreamEnded E r fuel Hka) as Hended.
      pose proof (RoutedStreamOpen E r fuel Hka) as Hopen.
      destruct (ka_run E fuel ka_start) as [tr st]. cbn [fst snd] in *.
      destruct (ka_pc st); try (apply Hopen; discriminate).
      now apply Hended. }
    destruct (String.eqb_spec (uri r) "/runControlTest") as [Hct | Hnct].
    { destruct (Nat.leb_spec (pattern_magic_bytes E) (pattern_bytes E)).
      - now apply RoutedControlTest.
      - now apply RoutedControlOverrun. }
    destruct (String.eqb_spec (uri r) "/oculusLatencyTester") as [Hhw | Hnhw].
    { destruct (run_hardware_latency_test E "Unknown error") as [ok text]
        eqn:Hrun.
      pose proof (RoutedHardwareTest E r ok text Hhw Hrun) as H.
      now destruct ok. }
    now apply RoutedStatic.
Qed.

End Kinds.

(** ** Response heads *)

Lemma append_empty_r (s : string) : s ++ EmptyString = s.
Proof. induction s as [| c s IH]; [reflexivity |]. simpl. now rewrite IH. Qed.

Lemma append_assoc (a b c : string) : (a ++ b) ++ c = a ++ (b ++ c).
Proof. induction a as [| x a IH]; [reflexivity |]. simpl. now rewrite IH. Qed.

(** A line without carriage return, ended by CR LF, is read as one line of
    the head. *)
Lemma split_head_line (l : string) :
  forall (acc s : string),
    no_cr l = true ->
    acc ++ l <> EmptyString ->
    Http.split_head acc (l ++ CRLF ++ s)
    = let (lines, body) := Http.split_head EmptyString s in
      ((acc ++ l) :: lines, body).
Proof.
  induction l as [| c l IH]; intros acc s Hcr Hne.
  - rewrite append_empty_r in *.
    change (EmptyString ++ CRLF ++ s) with (String CR (String LF s)).
    cbn [Http.split_head]. rewrite !Ascii.eqb_refl. cbn [andb].
    destruct acc as [| a acc]; [contradiction | reflexivity].
  - cbn [no_cr] in Hcr. apply andb_true_iff in Hcr. destruct Hcr as [Hc Hl].
    apply negb_true_iff in Hc.
    assert (Hstep : Http.split_head acc (String c l ++ CRLF ++ s)
                    = Http.split_head (acc ++ String c EmptyString)
                        (l ++ CRLF ++ s)).
    { cbn [append Http.split_head]. rewrite Hc. cbn [andb].
      destruct l; reflexivity. }
    rewrite Hstep, IH.
    + now rewrite append_assoc.
    + exact Hl.
    + rewrite append_assoc. exact Hne.
Qed.

(** A header that is the first line after the status line is found,
    whatever follows it. *)
Lemma has_header_second (status h rest : string) :
  no_cr status = true -> status <> EmptyString ->
  no_cr h = true -> h <> EmptyString ->
  Http.has_header h (status ++ CRLF ++ h ++ CRLF ++ rest) = true.
Proof.
  intros Hs Hsne Hh Hhne.
  unfold Http.has_header, Http.headers.
  rewrite (split_head_line status EmptyString) by assumption.
  rewrite (split_head_line h EmptyString) by assumption.
  destruct (Http.split_head EmptyString rest) as [lines body].
  cbn [fst tl existsb append]. now rewrite String.eqb_refl.
Qed.

Lemma found_headers_no_cache (mime : string) (n : Z) :
  Http.has_header "Cache-Control: no-cache" (found_headers mime n) = true.
Proof.
  unfold found_headers. apply has_header_second; (reflexivity || discriminate).
Qed.

Lemma no_cr_append (a b : string) :
  no_cr (a ++ b) = (no_cr a && no_cr b)%bool.
Proof.
  induction a as [| c a IH]; [reflexivity |].
  cbn [append no_cr]. rewrite IH. now rewrite andb_assoc.
Qed.

Lemma string_of_uint_no_cr (d : Decimal.uint) :
  no_cr (NilEmpty.string_of_uint d) = true.
Proof. induction d; cbn [NilEmpty.string_of_uint no_cr]; auto. Qed.

Lemma substring_after (a b : string) :
  substring (String.length a) (String.length (a ++ b) - String.length a)
            (a ++ b)
  = b.
Proof.
  induction a as [| c a IH]; cbn [append String.length substring].
  - rewrite Nat.sub_0_r. induction b as [| c b IHb]; [reflexivity |].
    cbn [String.length substring]. now rewrite IHb.
  - exact IH.
Qed.

Lemma decimal_format_lu (n : Z) :
  (0 <= n)%Z -> decimal (format_lu n) = Some n.
Proof.
  intros Hn. unfold decimal, format_lu. rewrite NilEmpty.usu.
  cbn [option_map]. now rewrite DecimalN.Unsigned.of_to, Z2N.id.
Qed.

(** The head of a found file, line by line, for a mime type that is one
    line. *)
Lemma found_headers_lines (mime : string) (n : Z) :
  no_cr mime = true ->
  Http.split_head EmptyString (found_headers mime n)
  = ([ "HTTP/1.1 200 OK"; "Cache-Control: no-cache";
       "Content-Type: " ++ mime; "Content-Length: " ++ format_lu n;
       "Connection: close" ],
     EmptyString).
Proof.
  intros Hmime. unfold found_headers.
  rewrite (split_head_line "HTTP/1.1 200 OK" EmptyString)
    by (reflexivity || discriminate).
  rewrite (split_head_line "Cache-Control: no-cache" EmptyString)
    by (reflexivity || discriminate).
  rewrite <- (append_assoc "Content-Type: " mime).
  rewrite (split_head_line ("Content-Type: " ++ mime) EmptyString)
    by (rewrite ?no_cr_append, ?Hmime; reflexivity || discriminate).
  rewrite <- (append_assoc "Content-Length: " (format_lu n)).
  rewrite (split_head_line ("Content-Length: " ++ format_lu n) EmptyString)
    by (rewrite ?no_cr_append; unfold format_lu;
        rewrite ?string_of_uint_no_cr; reflexivity || discriminate).
  rewrite (split_head_line "Connection: close" EmptyString)
    by (reflexivity || discriminate).
  reflexivity.
Qed.

Lemma found_headers_status (mime : string) (n : Z) :
  Http.status_line (found_headers mime n) = "HTTP/1.1 200 OK".
Proof.
  unfold Http.status_line, found_headers.
  rewrite (split_head_line "HTTP/1.1 200 OK" EmptyString)
    by (reflexivity || discriminate).
  now destruct (Http.split_head _ _).
Qed.

Lemma found_headers_content_length (mime : string) (n : Z) :
  no_cr mime = true -> (0 <= n)%Z ->
  content_length (found_headers mime n) = Some n.
Proof.
  intros Hmime Hn. unfold content_length, Http.headers.
  rewrite (found_headers_lines mime n Hmime).
  assert (H1 : starts_with "Content-Length: " "Cache-Control: no-cache"
               = false) by reflexivity.
  assert (H2 : starts_with "Content-Length: " ("Content-Type: " ++ mime)
               = false) by reflexivity.
  assert (H3 : starts_with "Content-Length: "
                 ("Content-Length: " ++ format_lu n) = true) by reflexivity.
  cbn [fst tl find]. rewrite H1, H2, H3.
  replace (substring 16
             (String.length ("Content-Length: " ++ format_lu n) - 16)
             ("Content-Length: " ++ format_lu n))
    with (format_lu n)
    by (symmetry; exact (substring_after "Content-Length: " (format_lu n))).
  now apply decimal_format_lu.
Qed.

Section Heads.
Variable E : collaborators.

Lemma report_latency_events (pattern : list Z) (ev : event) :
  In ev (report_latency E pattern) ->
  ev = EvMeasure pattern
  \/ (exists m,
        measure_latency E pattern initial_measurement = (true, m)
        /\ ev = EvPrintf (latency_ok_headers ++ latency_json m))
  \/ (exists m,
        measure_latency E pattern initial_measurement = (false, m)
        /\ (ev = EvPrintf (latency_error_headers ++ error m)
            \/ ev = EvDebugLog
                      ("measure_latency reported error: " ++ error m))).
Proof.
  unfold report_latency.
  destruct (measure_latency E pattern initial_measurement) as [ok m].
  destruct ok; cbn [negb In]; intros H.
  - destruct H as [<- | [<- | []]]; [now left |].
    right. left. now exists m.
  - destruct H as [<- | [<- | [<- | []]]]; [now left | |];
      right; right; exists m; auto.
Qed.

Lemma serve_events (r : mg_request_info) (ev : event) :
  In ev (sent (serve_file_from_memory_or_404 E r)) ->
  (exists path, ev = EvGetFile path)
  \/ ev = EvPrintf not_found_response
  \/ (exists mime n, ev = EvPrintf (found_headers mime n))
  \/ (exists file ret, ev = EvWrite file ret).
Proof.
  unfold serve_file_from_memory_or_404.
  destruct (_ <? max_path)%Z.
  - destruct (snprintf _ _) as [file_path n].
    destruct (get_file E file_path) as [file |]; cbn [sent In]; intros H.
    + destruct H as [<- | [<- | [<- | []]]].
      * left. now eexists.
      * right. right. left. now do 2 eexists.
      * right. right. right. now do 2 eexists.
    + destruct H as [<- | [<- | []]]; [left; now eexists | now right; left].
  - cbn [sent In]. intros [<- | []]. now right; left.
Qed.

End Heads.

(** ** What the router does and does not do *)

Section More.
Variable E : collaborators.

(** X2. The router runs a measurement only for a "/test" request whose
    query holds a pattern of the required length that decodes, on that
    pattern, or for "/runControlTest", on the random pattern; never for a
    malformed request, a stream, a hardware test or a file. *)
Theorem measures_only_when_asked (fuel : nat) (r : mg_request_info)
    (pattern : list Z) :
  In (EvMeasure pattern)
     (outcome_trace (mongoose_begin_request_callback E fuel r)) ->
  (uri r = "/test"
   /\ exists qs hex,
        query_string r = Some qs
        /\ mg_get_var E qs (strlen qs) "magicPattern"
                      (hex_pattern_length E + 1)
           = (hex_pattern_length E, hex)
        /\ parse_hex_magic_pattern E hex = Some pattern)
  \/ (uri r = "/runControlTest" /\ pattern = random_test_pattern E).
Proof.
  assert (Hreport : forall p,
            In (EvMeasure pattern) (report_latency E p) -> pattern = p).
  { intros p Hin.
    destruct (report_latency_events E p _ Hin)
      as [Heq | [(m & _ & Habs) | (m & _ & [Habs | Habs])]];
      try discriminate Habs.
    now inversion Heq. }
  assert (Hstream : forall n,
            ~ In (EvMeasure pattern) (fst (ka_run E n ka_start))).
  { intros n Hin. pose proof (ka_run_stream_events E n ka_start) as Hs.
    rewrite Forall_forall in Hs. exact (Hs _ Hin). }
  pose proof (router_routed E fuel r) as Hr.
  destruct Hr as [| qs hex p Huri Hqs Hvar Hparse | | | Huri | | |];
    cbn [outcome_trace]; intros Hin.
  - destruct Hin.
  - apply Hreport in Hin. subst p. left. split; [exact Huri |].
    now exists qs, hex.
  - now apply Hstream in Hin.
  - now apply Hstream in Hin.
  - destruct Hin as [Habs | Hin]; [discriminate Habs |].
    apply in_app_or in Hin. destruct Hin as [Hin | [Habs | []]];
      [| discriminate Habs].
    right. split; [exact Huri | now apply Hreport].
  - destruct Hin.
  - destruct Hin as [Habs | [Habs | [Habs | []]]]; discriminate Habs.
  - unfold static_outcome in Hin. destruct (ndebug E); [| destruct Hin].
    cbn [outcome_trace] in Hin.
    destruct (serve_events E r _ Hin)
      as [(p & Habs) | [Habs | [(mime & n & Habs) | (f & rt & Habs)]]];
      discriminate Habs.
Qed.

Lemma report_latency_printf (pattern : list Z) :
  exists text, In (EvPrintf text) (report_latency E pattern).
Proof.
  unfold report_latency.
  destruct (measure_latency E pattern initial_measurement) as [ok m].
  destruct ok; cbn [negb]; eexists; cbn [In]; eauto.
Qed.

Lemma serve_printf (r : mg_request_info) :
  exists text, In (EvPrintf text) (sent (serve_file_from_memory_or_404 E r)).
Proof.
  unfold serve_file_from_memory_or_404.
  destruct (_ <? max_path)%Z.
  - destruct (snprintf _ _) as [file_path n].
    destruct (get_file E file_path); eexists; cbn [sent In]; eauto.
  - eexists. cbn [sent In]. eauto.
Qed.

Lemma in_nonempty {A} (x : A) (l : list A) : In x l -> l <> [].
Proof. intros Hin ->. destruct Hin. Qed.

(** X7. Whenever the router returns, it returns 1 having done something,
    or 0, in a debug build only, having done nothing; it is still running
    only for "/keepServerAlive".  In a release build every request other
    than "/keepServerAlive" and "/runControlTest", "/test" without a query
    string apart, is answered: the router writes a response and returns
    1. *)
Theorem router_return_value (fuel : nat) (r : mg_request_info) :
  (forall ret tr,
     mongoose_begin_request_callback E fuel r = Returned ret tr ->
     (ret = 1%Z /\ tr <> [])
     \/ (ret = 0%Z /\ tr = [] /\ ndebug E = false))
  /\ (forall tr,
        mongoose_begin_request_callback E fuel r = Running tr ->
        uri r = "/keepServerAlive")
  /\ (ndebug E = true ->
      uri r <> "/keepServerAlive" ->
      uri r <> "/runControlTest" ->
      (uri r = "/test" -> query_string r <> None) ->
      exists tr text,
        mongoose_begin_request_callback E fuel r = Returned 1 tr
        /\ In (EvPrintf text) tr).
Proof.
  assert (Hshape :
            match mongoose_begin_request_callback E fuel r with
            | Returned ret tr =>
                (ret = 1%Z /\ tr <> [])
                \/ (ret = 0%Z /\ tr = [] /\ ndebug E = false)
            | Running tr => uri r = "/keepServerAlive"
            | Undefined => True
            end).
  { pose proof (router_routed E fuel r) as Hr.
    destruct Hr as [| qs hex p | n Huri Hret | | | | ok text |]; auto.
    - left. split; [reflexivity |].
      destruct (report_latency_printf p) as [text Hin].
      exact (in_nonempty _ _ Hin).
    - left. split; [reflexivity |].
      pose proof (ka_start_bracket E n) as Hb. rewrite Hret in Hb.
      destruct Hb as (body & -> & _). discriminate.
    - left. split; [reflexivity | discriminate].
    - left. split; [reflexivity | discriminate].
    - unfold static_outcome. destruct (ndebug E); [left | right; auto].
      split; [reflexivity |].
      destruct (serve_printf r) as [text Hin].
      exact (in_nonempty _ _ Hin). }
  split; [| split].
  - intros ret tr Heq. now rewrite Heq in Hshape.
  - intros tr Heq. now rewrite Heq in Hshape.
  - clear Hshape. intros Hrel Hka Hct Hquery.
    pose proof (router_routed E fuel r) as Hr.
    destruct Hr as [Huri Hqs | qs hex p | | | Huri | Huri | ok text |];
      try contradiction.
    + now apply Hquery in Huri.
    + destruct (report_latency_printf p) as [text Hin]. eauto.
    + eexists. eexists. split; [reflexivity |]. cbn [In]. eauto.
    + unfold static_outcome. rewrite Hrel.
      destruct (serve_printf r) as [text Hin]. eauto.
Qed.

(** X8. A request for any path other than the four special ones, with or
    without a query string, is answered by the in-memory file server in a
    release build and left to mongoose, unanswered, in a debug build. *)
Theorem other_paths_static (fuel : nat) (r : mg_request_info) :
  uri r <> "/test" ->
  uri r <> "/keepServerAlive" ->
  uri r <> "/runControlTest" ->
  uri r <> "/oculusLatencyTester" ->
  mongoose_begin_request_callback E fuel r
  = (if ndebug E
     then Returned 1 (sent (serve_file_from_memory_or_404 E r))
     else Returned 0 []).
Proof.
  intros H1 H2 H3 H4.
  unfold mongoose_begin_request_callback, is_latency_test_request, streq.
  destruct (String.eqb_spec (uri r) "/test"); [contradiction |].
  destruct (String.eqb_spec (uri r) "/keepServerAlive"); [contradiction |].
  destruct (String.eqb_spec (uri r) "/runControlTest"); [contradiction |].
  destruct (String.eqb_spec (uri r) "/oculusLatencyTester");
    [contradiction | reflexivity].
Qed.

Lemma random_test_pattern_length :
  pattern_magic_bytes E <= pattern_bytes E ->
  List.length (random_test_pattern E) = pattern_bytes E.
Proof.
  intros Hle. unfold random_test_pattern.
  rewrite length_app, length_map, length_seq, repeat_length. lia.
Qed.

Lemma random_test_pattern_bytes :
  Forall (fun b => (0 <= b < 256)%Z) (random_test_pattern E).
Proof.
  unfold random_test_pattern. apply Forall_app. split.
  - rewrite Forall_map, Forall_forall. intros i _.
    apply Z.mod_pos_bound. lia.
  - rewrite Forall_forall. intros b Hb. apply repeat_spec in Hb. lia.
Qed.

Lemma random_test_pattern_nth (i : nat) :
  nth i (random_test_pattern E) 0%Z
  = if (i <? pattern_magic_bytes E)%nat then (rand E i mod 256)%Z else 0%Z.
Proof.
  unfold random_test_pattern.
  destruct (Nat.ltb_spec i (pattern_magic_bytes E)) as [Hlt | Hge].
  - rewrite app_nth1 by (rewrite length_map, length_seq; exact Hlt).
    rewrite (nth_indep _ 0%Z (rand E 0 mod 256)%Z)
      by (rewrite length_map, length_seq; exact Hlt).
    rewrite (map_nth (fun i => (rand E i mod 256)%Z)), seq_nth by exact Hlt.
    reflexivity.
  - rewrite app_nth2 by (rewrite length_map, length_seq; exact Hge).
    destruct (nth_in_or_default
                (i - List.length
                       (map (fun i => (rand E i mod 256)%Z)
                            (seq 0 (pattern_magic_bytes E))))
                (repeat 0%Z (pattern_bytes E - pattern_magic_bytes E)) 0%Z)
      as [Hin | Hd]; [now apply repeat_spec in Hin | exact Hd].
Qed.

(** X9. The control test opens the reference window on a fresh pattern,
    reports the measurement of that same pattern, and closes the window
    whether the measurement succeeded or not.  The pattern has
    [pattern_bytes] bytes: the first [pattern_magic_bytes] are the values
    of [rand] reduced to a byte, the others are zero. *)
Theorem control_test_brackets_measurement (fuel : nat)
    (r : mg_request_info) :
  uri r = "/runControlTest" ->
  pattern_magic_bytes E <= pattern_bytes E ->
  let pattern := random_test_pattern E in
  mongoose_begin_request_callback E fuel r
  = Returned 1 (EvOpenWindow pattern
                :: report_latency E pattern ++ [ EvCloseWindow ])%list
  /\ List.length pattern = pattern_bytes E
  /\ Forall (fun b => (0 <= b < 256)%Z) pattern
  /\ (forall i,
        nth i pattern 0%Z
        = if (i <? pattern_magic_bytes E)%nat then (rand E i mod 256)%Z
          else 0%Z).
Proof.
  intros Huri Hle pattern. split; [| split; [| split]].
  - unfold mongoose_begin_request_callback, is_latency_test_request.
    rewrite Huri. cbn [streq String.eqb Ascii.eqb Bool.eqb].
    destruct (Nat.leb_spec (pattern_magic_bytes E) (pattern_bytes E));
      [reflexivity | lia].
  - now apply random_test_pattern_length.
  - apply random_test_pattern_bytes.
  - apply random_test_pattern_nth.
Qed.

(** X3. [report_latency] measures once and writes one response: 200 with
    the JSON text as body when the measurement succeeds, 500 with the error
    text as body (logged first) when it fails; both allow any origin and
    are plain text. *)
Theorem report_latency_response (pattern : list Z) :
  let (ok, m) := measure_latency E pattern initial_measurement in
  exists text,
    report_latency E pattern
    = (EvMeasure pattern
       :: (if ok then []
           else [ EvDebugLog
                    ("measure_latency reported error: " ++ error m) ])
       ++ [ EvPrintf text ])%list
    /\ Http.status_line text
       = (if ok then "HTTP/1.1 200 OK"
          else "HTTP/1.1 500 Internal Server Error")
    /\ Http.has_header "Access-Control-Allow-Origin: *" text = true
    /\ Http.has_header "Content-Type: text/plain" text = true
    /\ Http.body text = (if ok then latency_json m else error m).
Proof.
  unfold report_latency.
  destruct (measure_latency E pattern initial_measurement) as [ok m].
  destruct ok; cbn [negb].
  - exists (latency_ok_headers ++ latency_json m). repeat split.
  - exists (latency_error_headers ++ error m). repeat split.
Qed.

End More.

(** ** Lookups of the file server *)

Section Files.
Variable E : collaborators.

(** X4. When the path fits the buffer, the file server looks up exactly
    the document root followed by the URI, never a truncated path.  A hit
    is answered with status 200 and caching disabled, then the bytes of
    the asset; when the mime type is one line, the headers are the four of
    the source and the content length they declare, read back as a number,
    is the number of bytes of the asset.  A miss is answered with the
    fixed 404, whose declared content length, 25, is the length of its
    body. *)
Theorem asset_lookup (r : mg_request_info) :
  let path := document_root ++ effective_uri (uri r) in
  let mime := mg_get_builtin_mime_type E path in
  (strlen path + 1 < max_path)%Z ->
  (forall file,
     get_file E path = Some file ->
     exists head,
       serve_file_from_memory_or_404 E r
       = {| stored := strlen path + 1;
            sent := [ EvGetFile path; EvPrintf head;
                      EvWrite file (mg_write_result E 0) ] |}
       /\ head = found_headers mime (file_size file)
       /\ Http.status_line head = "HTTP/1.1 200 OK"
       /\ Http.has_header "Cache-Control: no-cache" head = true
       /\ (no_cr mime = true ->
           Http.headers head
           = [ "Cache-Control: no-cache"; "Content-Type: " ++ mime;
               "Content-Length: " ++ format_lu (file_size file);
               "Connection: close" ]
           /\ content_length head = Some (Z.of_nat (String.length file))
           /\ Http.body head = EmptyString))
  /\ (get_file E path = None ->
      serve_file_from_memory_or_404 E r
      = {| stored := strlen path + 1;
           sent := [ EvGetFile path; EvPrintf not_found_response ] |})
  /\ Http.status_line not_found_response = "HTTP/1.1 404 Not Found"
  /\ content_length not_found_response = Some 25%Z
  /\ Z.of_nat (String.length (Http.body not_found_response)) = 25%Z.
Proof.
  intros path mime Hfits.
  assert (Hserve :
            serve_file_from_memory_or_404 E r
            = {| stored := strlen path + 1;
                 sent :=
                   EvGetFile path
                   :: match get_file E path with
                      | Some file =>
                          [ EvPrintf (found_headers mime (file_size file));
                            EvWrite file (mg_write_result E 0) ]
                      | None => [ EvPrintf not_found_response ]
                      end |}).
  { unfold serve_file_from_memory_or_404.
    set (u := effective_uri (uri r)) in *.
    assert (Hlen : (strlen u + strlen document_root + 1
                    = strlen path + 1)%Z)
      by (unfold path; rewrite strlen_append; lia).
    rewrite Hlen.
    destruct (Z.ltb_spec (strlen path + 1) max_path) as [_ | Hge]; [| lia].
    fold path. rewrite snprintf_fits. fold mime.
    now destruct (get_file E path). }
  split; [| split; [| split; [| split]]]; try reflexivity.
  - intros file Hfile. rewrite Hfile in Hserve.
    exists (found_headers mime (file_size file)).
    split; [exact Hserve |]. split; [reflexivity |].
    split; [apply found_headers_status |].
    split; [apply found_headers_no_cache |].
    intros Hmime. unfold Http.headers, Http.body.
    rewrite (found_headers_content_length mime (file_size file) Hmime)
      by (unfold file_size; lia).
    rewrite (found_headers_lines mime (file_size file) Hmime).
    repeat split.
  - intros Hfile. now rewrite Hfile in Hserve.
Qed.

(** X5. An asset is looked up exactly when the document root and the URI
    together have at most 2046 characters: a path of 2047 characters, which
    would fit the buffer with its terminating zero, is answered 404 without
    a lookup. *)
Theorem lookup_iff_path_fits (r : mg_request_info) :
  (exists path, In (EvGetFile path) (sent (serve_file_from_memory_or_404 E r)))
  <-> (strlen document_root + strlen (effective_uri (uri r)) <= 2046)%Z.
Proof.
  set (path := document_root ++ effective_uri (uri r)).
  assert (Hlen : (strlen path
                  = strlen document_root + strlen (effective_uri (uri r)))%Z)
    by apply strlen_append.
  split.
  - intros (p & Hin).
    destruct (Z.le_gt_cases
                (strlen document_root + strlen (effective_uri (uri r))) 2046)
      as [Hle | Hgt]; [exact Hle | exfalso].
    rewrite (path_length_guard_threshold E r) in Hin
      by (unfold max_path; lia).
    destruct Hin as [Habs | []]. discriminate Habs.
  - intros Hle. exists path.
    pose proof (serve_lookup E r) as Hhd. cbv zeta in Hhd. fold path in Hhd.
    assert (Hfits : (strlen (effective_uri (uri r)) + strlen document_root + 1
                     < max_path)%Z) by (unfold max_path; lia).
    specialize (Hhd Hfits).
    destruct (sent (serve_file_from_memory_or_404 E r)) as [| ev tr];
      [discriminate Hhd |].
    left. now inversion Hhd.
Qed.

End Files.

(** ** The process as a whole *)

(** X10. In every interleaving, as long as no more connections were
    accepted than [LONG_MAX], the counter is the number of handlers between
    their increment and their decrement: never negative, never above the
    number of connections accepted. *)
Theorem keep_alives_within_connections (LONG_MAX : Z) (cfg : startup)
    (schedule : list turn) :
  (0 < LONG_MAX)%Z ->
  let p := process_run LONG_MAX cfg schedule in
  (Z.of_nat (List.length (handlers p)) <= LONG_MAX)%Z ->
  keep_alives p = counted (handlers p)
  /\ (0 <= keep_alives p <= Z.of_nat (List.length (handlers p)))%Z.
Proof.
  intros Hpos p Hlen.
  pose proof (keep_alives_is_count LONG_MAX Hpos cfg schedule Hlen) as Hk.
  fold p in Hk. split; [exact Hk |].
  rewrite Hk. apply counted_bounds.
Qed.

(** X11. In every interleaving without wrap-around, a turn of the main
    thread leaves the first wait exactly when a stream is open at that
    moment, and leaves the second wait, for [mg_stop], exactly when none
    is; it changes neither the counter nor any handler. *)
Theorem main_thread_follows_streams (LONG_MAX : Z) (cfg : startup)
    (schedule : list turn) :
  (0 < LONG_MAX)%Z ->
  let p := process_run LONG_MAX cfg schedule in
  let next := control (process_step LONG_MAX cfg p Main) in
  (Z.of_nat (List.length (handlers p)) <= LONG_MAX)%Z ->
  (control p = CtlWaitActivity ->
   next = if (counted (handlers p) =? 0)%Z
          then CtlWaitActivity else CtlWaitQuiescence)
  /\ (control p = CtlWaitQuiescence ->
      next = if (counted (handlers p) =? 0)%Z
             then CtlStop else CtlWaitQuiescence)
  /\ handlers (process_step LONG_MAX cfg p Main) = handlers p
  /\ keep_alives (process_step LONG_MAX cfg p Main) = keep_alives p.
Proof.
  intros Hpos p next Hlen.
  pose proof (keep_alives_is_count LONG_MAX Hpos cfg schedule Hlen) as Hk.
  fold p in Hk. pose proof (counted_bounds (handlers p)) as Hb.
  unfold next. cbn [process_step].
  split; [| split; [| split]].
  - intros Hpc. rewrite Hpc, Hk. cbn [ctl_step].
    now destruct (counted (handlers p) =? 0)%Z.
  - intros Hpc. rewrite Hpc, Hk. cbn [ctl_step].
    destruct (Z.eqb_spec (counted (handlers p)) 0) as [H0 | Hne].
    + rewrite H0. reflexivity.
    + destruct (Z.gtb_spec (counted (handlers p)) 0); [reflexivity | lia].
  - now destruct (ctl_step cfg (control p) (keep_alives p)) as [[evs pc] |].
  - now destruct (ctl_step cfg (control p) (keep_alives p)) as [[evs pc] |].
Qed.

(** X12. [run_server] from its start.  When the listener does not come
    up it logs and exits with status 1, without opening the browser or
    stopping anything.  When it does, it opens the browser at the URL the
    [automated] option selects, goes on if the browser fails to open, polls
    every second until the counter is not 0, then every tenth of a second
    while it is above 0, stops the listener and returns. *)
Theorem run_server_trace (cfg : startup) (k x y z : Z)
    (zs ps rest : list Z) :
  (listener_started cfg = false ->
   ctl_run cfg (k :: rest) CtlStart
   = ([ EvStart; EvDebugLog "Failed to start server." ], CtlExited 1))
  /\ (listener_started cfg = true ->
      Forall (fun v => v = 0%Z) zs -> x <> 0%Z ->
      Forall (fun v => (0 < v)%Z) ps -> (y <= 0)%Z ->
      ctl_run cfg (k :: zs ++ x :: ps ++ y :: z :: rest) CtlStart
      = (([ EvStart; EvSleep 0;
            EvOpenBrowser
              (if automated cfg
               then "http://localhost:5578/latency-benchmark.html?auto=1"
               else "http://localhost:5578/") ]
          ++ (if browser_opened cfg then []
              else [ EvDebugLog "Failed to open browser." ])
          ++ repeat (EvSleep (1000 * 1000)) (List.length zs)
          ++ repeat (EvSleep (1000 * 100)) (List.length ps)
          ++ [ EvStop ])%list,
         CtlReturned)).
Proof.
  split.
  - intros Hdown. cbn [ctl_run ctl_step]. rewrite Hdown.
    now rewrite ctl_run_stuck.
  - intros Hup Hzs Hx Hps Hy. cbn [ctl_run ctl_step]. rewrite Hup.
    rewrite gate_opens by assumption.
    now rewrite <- app_assoc.
Qed.

(** ** Keep-alive, hardware test and malformed test requests *)

Section Streams.
Variable E : collaborators.

Lemma keep_alive_routed (fuel : nat) (r : mg_request_info) :
  uri r = "/keepServerAlive" ->
  mongoose_begin_request_callback E fuel r
  = match ka_pc (snd (ka_run E fuel ka_start)) with
    | KaReturned => Returned 1 (fst (ka_run E fuel ka_start))
    | _ => Running (fst (ka_run E fuel ka_start))
    end.
Proof.
  intros Huri. unfold mongoose_begin_request_callback, is_latency_test_request.
  rewrite Huri. cbn [streq String.eqb Ascii.eqb Bool.eqb].
  now destruct (ka_run E fuel ka_start).
Qed.

Lemma ka_step_none (st : ka_state) :
  ka_step E st = None -> ka_pc st = KaReturned.
Proof.
  destruct st as [pc a w]. unfold ka_step. cbn [ka_pc].
  destruct pc; (discriminate || reflexivity).
Qed.

(** A handler that has not returned has used every step it was given. *)
Lemma ka_run_length (fuel : nat) :
  forall st : ka_state,
    ka_pc (snd (ka_run E fuel st)) <> KaReturned ->
    List.length (fst (ka_run E fuel st)) = fuel.
Proof.
  induction fuel as [| fuel IH]; intros st Hopen; cbn [ka_run] in *.
  - reflexivity.
  - destruct (ka_step E st) as [[ev st'] |] eqn:Hstep.
    + specialize (IH st'). destruct (ka_run E fuel st') as [tr st''].
      cbn [fst snd List.length] in *. f_equal. now apply IH.
    + cbn [snd] in Hopen. now apply ka_step_none in Hstep.
Qed.

(** X13. As long as no write of the steady loop returns 0 the keep-alive
    request does not return: whatever the number of steps allowed, the
    handler has used them all and has not decremented the counter. *)
Theorem stream_open_while_writes_succeed (fuel : nat)
    (r : mg_request_info) :
  uri r = "/keepServerAlive" ->
  (forall k, mg_write_result E (Z.to_nat warmup_chunks + k) <> 0%Z) ->
  exists tr,
    mongoose_begin_request_callback E fuel r = Running tr
    /\ List.length tr = fuel
    /\ ~ In (EvFetchAdd (-1)) tr.
Proof.
  intros Huri Hok.
  assert (Hopen : ka_pc (snd (ka_run E fuel ka_start)) <> KaReturned).
  { intros Hret.
    destruct (returned_after_failed_write E fuel Hret) as (n & H0 & _).
    exact (Hok n H0). }
  exists (fst (ka_run E fuel ka_start)). split; [| split].
  - rewrite (keep_alive_routed fuel r Huri).
    destruct (ka_pc (snd (ka_run E fuel ka_start)));
      reflexivity || contradiction.
  - now apply ka_run_length.
  - intros Hin. apply in_split in Hin. destruct Hin as (pre & post & Heq).
    destruct (bracket_decrement_last _ _ pre post
                (ka_start_bracket E fuel) Heq) as [_ Hpc].
    contradiction.
Qed.

(** X14. The whole trace of a keep-alive request whose [n+1]-th write of
    the steady loop is the first to return 0: increment, headers, one
    sample, the burst, [n] rounds of sample, write and sleep, then a last
    sample and the failed write, followed at once by the decrement and the
    return of 1. *)
Theorem stream_trace_until_failed_write (n fuel : nat)
    (r : mg_request_info) :
  uri r = "/keepServerAlive" ->
  (forall k, k < n ->
     mg_write_result E (Z.to_nat warmup_chunks + k) <> 0%Z) ->
  mg_write_result E (Z.to_nat warmup_chunks + n) = 0%Z ->
  let b := latency_tester_available E 0 in
  let b' := latency_tester_available E (S n) in
  mongoose_begin_request_callback E
    (3 + Z.to_nat warmup_chunks + (3 * n + (3 + fuel))) r
  = Returned 1
      (EvFetchAdd 1 :: EvPrintf keep_alive_headers :: EvAvailable b
       :: warmup_burst E (chunk_for b)
       ++ steady_rounds E n 1 (Z.to_nat warmup_chunks)
       ++ [ EvAvailable b'; EvWrite (chunk_for b') 0; EvFetchAdd (-1) ])%list.
Proof.
  intros Huri Hok Hfail b b'.
  rewrite (keep_alive_routed _ r Huri).
  rewrite (keep_alive_returns E n fuel Hok Hfail). reflexivity.
Qed.
(** X15. The hardware test is answered with 200 when
    [run_hardware_latency_test] succeeds and 500 when it fails; either way
    the head allows any origin and disables caching, and the body is the
    text the test left, "Unknown error" if it left none. *)
Theorem hardware_test_response (fuel : nat) (r : mg_request_info) :
  uri r = "/oculusLatencyTester" ->
  let (ok, text) := run_hardware_latency_test E "Unknown error" in
  exists response,
    mongoose_begin_request_callback E fuel r
    = Returned 1
        [ EvHardwareTest;
          EvDebugLog (if ok then "hardware latency test succeeded"
                      else "hardware latency test failed");
          EvPrintf response ]
    /\ Http.status_line response
       = (if ok then "HTTP/1.1 200 OK"
          else "HTTP/1.1 500 Internal Server Error")
    /\ Http.headers response
       = [ "Access-Control-Allow-Origin: *"; "Cache-Control: no-cache";
           "Content-Type: text/plain" ]
    /\ Http.body response = text.
Proof.
  intros Huri.
  unfold mongoose_begin_request_callback, is_latency_test_request.
  rewrite Huri. cbn [streq String.eqb Ascii.eqb Bool.eqb].
  destruct (run_hardware_latency_test E "Unknown error") as [ok text].
  destruct ok.
  - exists (hardware_ok_headers ++ text). repeat split.
  - exists (hardware_error_headers ++ text). repeat split.
Qed.

(** X1. A "/test" request that has a query string, but no
    [magicPattern] of the required length in it or one that does not
    decode, is handled as a static path: never measured, never a 500.  In
    a release build without an asset "html/test" the answer is the fixed
    404. *)
Theorem malformed_test_request_served_statically (fuel : nat)
    (r : mg_request_info) (qs : string) :
  uri r = "/test" ->
  query_string r = Some qs ->
  (let (n, hex) :=
     mg_get_var E qs (strlen qs) "magicPattern" (hex_pattern_length E + 1) in
   n <> hex_pattern_length E \/ parse_hex_magic_pattern E hex = None) ->
  mongoose_begin_request_callback E fuel r
  = (if ndebug E
     then Returned 1 (sent (serve_file_from_memory_or_404 E r))
     else Returned 0 [])
  /\ (ndebug E = true -> get_file E "html/test" = None ->
      mongoose_begin_request_callback E fuel r
      = Returned 1 [ EvGetFile "html/test"; EvPrintf not_found_response ]).
Proof.
  intros Huri Hqs Hbad. split.
  - exact (malformed_pattern_falls_through E fuel r qs Huri Hqs Hbad).
  - intros Hrel Hfile.
    exact (malformed_pattern_not_found E fuel r qs Huri Hqs Hbad Hrel Hfile).
Qed.
End Streams.

(** ** The further properties on concrete requests and runs *)

Lemma malformed_test_request_served_statically_witness :
  mongoose_begin_request_callback Example.scenario_A 0
    (Example.get "/test" (Some "magicPattern=bad"))
  = Returned 1 [ EvGetFile "html/test"; EvPrintf not_found_response ].
Proof.
  apply (proj2 (malformed_test_request_served_statically Example.scenario_A
                  0 (Example.get "/test" (Some "magicPattern=bad"))
                  "magicPattern=bad" eq_refl eq_refl
                  (or_introl (fun H : 3%Z = 24%Z => Z.lt_neq 3 24 eq_refl H))));
    reflexivity.
Defined.

Lemma measures_only_when_asked_witness :
  (uri Example.valid_test_request = "/test"
   /\ exists qs hex,
        query_string Example.valid_test_request = Some qs
        /\ mg_get_var Example.scenario_A qs (strlen qs) "magicPattern"
                      (hex_pattern_length Example.scenario_A + 1)
           = (hex_pattern_length Example.scenario_A, hex)
        /\ parse_hex_magic_pattern Example.scenario_A hex
           = Some [138; 54; 5; 45; 2; 197; 150; 223; 164; 200; 7; 17]%Z)
  \/ (uri Example.valid_test_request = "/runControlTest"
      /\ [138; 54; 5; 45; 2; 197; 150; 223; 164; 200; 7; 17]%Z
         = random_test_pattern Example.scenario_A).
Proof.
  apply (measures_only_when_asked Example.scenario_A 0
           Example.valid_test_request).
  left. reflexivity.
Defined.

Lemma asset_lookup_witness :
  exists head,
    serve_file_from_memory_or_404 index_served (Example.get "/" None)
    = {| stored := 16;
         sent := [ EvGetFile "html/index.html"; EvPrintf head;
                   EvWrite "<html></html>" 13 ] |}
    /\ Http.status_line head = "HTTP/1.1 200 OK"
    /\ content_length head = Some 13%Z.
Proof.
  destruct (proj1 (asset_lookup index_served (Example.get "/" None)
                     eq_refl) "<html></html>" eq_refl)
    as (head & Hserve & _ & Hstatus & _ & Hlines).
  exists head. split; [exact Hserve |]. split; [exact Hstatus |].
  exact (proj1 (proj2 (Hlines eq_refl))).
Defined.

Lemma router_return_value_witness :
  exists tr text,
    mongoose_begin_request_callback index_served 0
      (Example.get "/missing.css" None)
    = Returned 1 tr
    /\ In (EvPrintf text) tr.
Proof.
  apply (proj2 (proj2 (router_return_value index_served 0
                         (Example.get "/missing.css" None))));
    try discriminate.
  reflexivity.
Defined.

Lemma lookup_iff_path_fits_witness :
  exists path,
    In (EvGetFile path)
       (sent (serve_file_from_memory_or_404 Example.scenario_A
                (Example.get "/" None))).
Proof.
  apply (proj2 (lookup_iff_path_fits Example.scenario_A
                  (Example.get "/" None))).
  vm_compute. discriminate.
Defined.


Lemma other_paths_static_witness :
  mongoose_begin_request_callback Example.scenario_A 0
    (Example.get "/favicon.ico" (Some "v=2"))
  = Returned 1 [ EvGetFile "html/favicon.ico"; EvPrintf not_found_response ].
Proof.
  apply (other_paths_static Example.scenario_A 0
           (Example.get "/favicon.ico" (Some "v=2")));
    discriminate.
Defined.

Lemma control_test_brackets_measurement_witness :
  List.length (random_test_pattern Example.scenario_A) = 16
  /\ Forall (fun b => (0 <= b < 256)%Z)
            (random_test_pattern Example.scenario_A).
Proof.
  pose proof (control_test_brackets_measurement Example.scenario_A 0
                (Example.get "/runControlTest" None) eq_refl
                (proj1 (Nat.leb_le 12 16) eq_refl)) as H.
  exact (conj (proj1 (proj2 H)) (proj1 (proj2 (proj2 H)))).
Defined.

Lemma keep_alives_within_connections_witness :
  let p := process_run long_max_64 Example.started one_stream in
  keep_alives p = counted (handlers p)
  /\ (0 <= keep_alives p <= Z.of_nat (List.length (handlers p)))%Z.
Proof.
  apply (keep_alives_within_connections long_max_64 Example.started
           one_stream eq_refl).
  vm_compute. discriminate.
Defined.

Lemma main_thread_follows_streams_witness :
  control (process_step long_max_64 Example.started
             (process_run long_max_64 Example.started one_stream) Main)
  = CtlWaitQuiescence.
Proof.
  assert (Hlen : (Z.of_nat (List.length
                    (handlers (process_run long_max_64 Example.started
                                 one_stream)))
                  <= long_max_64)%Z) by (vm_compute; discriminate).
  exact (proj1 (proj2 (main_thread_follows_streams long_max_64
                         Example.started one_stream eq_refl Hlen))
           eq_refl).
Defined.

Lemma run_server_trace_witness :
  ctl_run listener_down [0]%Z CtlStart
  = ([ EvStart; EvDebugLog "Failed to start server." ], CtlExited 1)
  /\ ctl_run Example.started [0; 0; 0; 1; 2; 1; 0; 0]%Z CtlStart
     = ([ EvStart; EvSleep 0; EvOpenBrowser "http://localhost:5578/";
          EvSleep (1000 * 1000); EvSleep (1000 * 1000);
          EvSleep (1000 * 100); EvSleep (1000 * 100); EvStop ],
        CtlReturned).
Proof.
  split.
  - exact (proj1 (run_server_trace listener_down 0 0 0 0 [] [] [])
             eq_refl).
  - apply (proj2 (run_server_trace Example.started 0 1 0 0
                    [0; 0]%Z [2; 1]%Z [])).
    + reflexivity.
    + repeat constructor.
    + discriminate.
    + repeat constructor.
    + discriminate.
Defined.

Lemma stream_open_while_writes_succeed_witness :
  exists tr,
    mongoose_begin_request_callback always_writable 5000
      (Example.get "/keepServerAlive" None)
    = Running tr
    /\ List.length tr = 5000
    /\ ~ In (EvFetchAdd (-1)) tr.
Proof.
  apply (stream_open_while_writes_succeed always_writable 5000
           (Example.get "/keepServerAlive" None)).
  - reflexivity.
  - intros k. discriminate.
Defined.

Lemma stream_trace_until_failed_write_witness :
  mongoose_begin_request_callback Example.failing_burst
    (3 + Z.to_nat warmup_chunks + (3 * 2 + (3 + 0)))
    (Example.get "/keepServerAlive" None)
  = Returned 1
      (EvFetchAdd 1 :: EvPrintf keep_alive_headers :: EvAvailable false
       :: warmup_burst Example.failing_burst chunk0
       ++ steady_rounds Example.failing_burst 2 1 (Z.to_nat warmup_chunks)
       ++ [ EvAvailable false; EvWrite chunk0 0; EvFetchAdd (-1) ])%list.
Proof.
  apply (stream_trace_until_failed_write Example.failing_burst 2 0
           (Example.get "/keepServerAlive" None)).
  - reflexivity.
  - intros k Hk. destruct k as [| [| k]]; [discriminate | discriminate | lia].
  - reflexivity.
Defined.

Lemma hardware_test_response_witness :
  exists response,
    mongoose_begin_request_callback always_writable 0
      (Example.get "/oculusLatencyTester" None)
    = Returned 1 [ EvHardwareTest;
                   EvDebugLog "hardware latency test succeeded";
                   EvPrintf response ]
    /\ Http.status_line response = "HTTP/1.1 200 OK"
    /\ Http.headers response
       = [ "Access-Control-Allow-Origin: *"; "Cache-Control: no-cache";
           "Content-Type: text/plain" ]
    /\ Http.body response = "Unknown error".
Proof.
  exact (hardware_test_response always_writable 0
           (Example.get "/oculusLatencyTester" None) eq_refl).
Defined.
